(** * DataPilot AI (src/app.py): a shallow embedding and its properties

    The Streamlit script [app.py] is embedded as a state-and-exception
    monad over the session store and the screen.  Everything the script
    does not own (the hosted model, Python's [exec], the pandas readers
    and renderer, the secrets file) is gathered in a [world] record that
    the definitions take as a parameter.  The texts on the screen are
    those of the script without their pictographs; [st.set_page_config],
    which shows nothing, is left out. *)

From Stdlib Require Import ZArith Ascii String List Lia.
From stdpp Require Import base option list strings pretty gmap.

Local Open Scope string_scope.
Local Open Scope list_scope.

(** ** Python strings

    A [str] is a [string], one [ascii] per character (code points below
    256). *)

Module PyStr.

(** [str.isspace] on one character: TAB..CR, FS..US, space, NEL, NBSP. *)
Definition isspace (c : ascii) : bool :=
  let n := nat_of_ascii c in
  (Nat.leb 9 n && Nat.leb n 13) || (Nat.leb 28 n && Nat.leb n 32)
  || Nat.eqb n 133 || Nat.eqb n 160.

Fixpoint lstrip (s : string) : string :=
  match s with
  | EmptyString => EmptyString
  | String c r => if isspace c then lstrip r else s
  end.

Fixpoint rstrip (s : string) : string :=
  match s with
  | EmptyString => EmptyString
  | String c r =>
      match rstrip r with
      | EmptyString => if isspace c then EmptyString else String c EmptyString
      | r' => String c r'
      end
  end.

(** [s.strip()] *)
Definition strip (s : string) : string := rstrip (lstrip s).

(** Left-to-right scan of [s.replace(old, new)] for a non-empty [old]:
    [skip] counts the characters of a match still to be dropped. *)
Fixpoint replace_from (old new : string) (skip : nat) (s : string) : string :=
  match s with
  | EmptyString => EmptyString
  | String c r =>
      match skip with
      | S k => replace_from old new k r
      | O =>
          if String.prefix old s
          then new +:+ replace_from old new (String.length old - 1) r
          else String c (replace_from old new 0 r)
      end
  end.

(** With an empty [old], Python puts [new] before every character and
    at the end. *)
Fixpoint interleave (new s : string) : string :=
  match s with
  | EmptyString => new
  | String c r => new +:+ String c (interleave new r)
  end.

(** [s.replace(old, new)] *)
Definition replace (old new s : string) : string :=
  match old with
  | EmptyString => interleave new s
  | String _ _ => replace_from old new 0 s
  end.

(** [s.endswith(suffix)] *)
Definition endswith (suffix s : string) : bool :=
  String.prefix (String.rev suffix) (String.rev s).

(** [sub in s] *)
Fixpoint contains (sub s : string) : bool :=
  String.prefix sub s
  || match s with
     | EmptyString => false
     | String _ r => contains sub r
     end.

Definition quote : string := String (ascii_of_nat 34) EmptyString.
Definition backtick : string := String (ascii_of_nat 96) EmptyString.
Definition newline : string := String (ascii_of_nat 10) EmptyString.
Definition fence : string := "```".
Definition fence_python : string := "```python".

End PyStr.

(** ** Python values, exceptions and results *)

(** A pandas table: header and rows of cells; no schema is enforced. *)
Record DataFrame := { df_columns : list string; df_rows : list (list string) }.

(** [df.head()]: the first five rows. *)
Definition head (d : DataFrame) : DataFrame :=
  {| df_columns := df_columns d; df_rows := take 5 (df_rows d) |}.

(** The values the script passes around.  [PyFigure] is a plotly figure
    (given by its description), [PyModule] a library handle. *)
Inductive pyval :=
| PyNone
| PyBool (b : bool)
| PyInt (z : Z)
| PyStr (s : string)
| PyFigure (spec : string)
| PyFrame (d : DataFrame)
| PyModule (name : string).

(** Exception classes.  The last three derive from [BaseException]
    only: an [except Exception] clause does not catch them.
    [StopException] is what [st.stop()] raises. *)
Inductive exn_class :=
| KeyError
| FileNotFoundError
| ValueError
| AttributeError
| OtherException (name : string)
| SystemExit
| KeyboardInterrupt
| StopException.

Definition is_Exception (c : exn_class) : bool :=
  match c with
  | SystemExit | KeyboardInterrupt | StopException => false
  | _ => true
  end.

(** An exception object; [exn_text] is what [str(e)] gives. *)
Record pyexn := { exn_cls : exn_class; exn_text : string }.

(** How a call ends: it returns, it raises, or it never comes back. *)
Inductive result (A : Type) :=
| Returns (a : A)
| Raises (e : pyexn)
| Diverges.
Arguments Returns {A} a.
Arguments Raises {A} e.
Arguments Diverges {A}.

(** The truth test of [if v:].  A DataFrame refuses it. *)
Definition py_truth (v : pyval) : result bool :=
  match v with
  | PyNone => Returns false
  | PyBool b => Returns b
  | PyInt z => Returns (negb (Z.eqb z 0))
  | PyStr s => Returns (negb (String.eqb s EmptyString))
  | PyFigure _ => Returns true
  | PyFrame _ =>
      Raises {| exn_cls := ValueError;
                exn_text := "The truth value of a DataFrame is ambiguous. Use a.empty, a.bool(), a.item(), a.any() or a.all()." |}
  | PyModule _ => Returns true
  end.

(** [v is not None] *)
Definition is_not_None (v : pyval) : bool :=
  match v with PyNone => false | _ => true end.

(** ** Session store, screen and the script monad *)

Inductive role := user | assistant.

(** A transcript record; only assistant records have the ["code"] key. *)
Record message := { msg_role : role; msg_content : string; msg_code : option pyval }.

(** [st.session_state]; [None] is a key that is not there yet. *)
Record session_state := {
  ss_messages : option (list message);
  ss_df : option (option DataFrame)
}.

(** What the script puts on the page, in order. *)
Inductive ui_event :=
| StError (text : string)
| StInfo (text : string)
| StSuccess (text : string)
| StTitle (text : string)
| StHeader (text : string)
| StMarkdown (text : string)
| StDataframe (d : DataFrame)
| StChatMessage (r : role)
| StSpinner (text : string)
| StExpander (label : string)
| StCode (code : pyval)
| StPlotlyChart (fig : pyval)
| StWrite (v : pyval).

Record machine := { session : session_state; screen : list ui_event }.

Definition M (A : Type) : Type := machine -> machine * result A.

Definition ret {A} (a : A) : M A := fun m => (m, Returns a).

Definition bind {A B} (c : M A) (k : A -> M B) : M B :=
  fun m =>
    match c m with
    | (m', Returns a) => k a m'
    | (m', Raises e) => (m', Raises e)
    | (m', Diverges) => (m', Diverges)
    end.

Definition raise {A} (e : pyexn) : M A := fun m => (m, Raises e).

(** A pure call that may raise or hang. *)
Definition lift {A} (r : result A) : M A := fun m => (m, r).

(** [try: body  except Exception as e: handler e] *)
Definition try_except_Exception {A} (body : M A) (handler : pyexn -> M A) : M A :=
  fun m =>
    match body m with
    | (m', Raises e) =>
        if is_Exception (exn_cls e) then handler e m' else (m', Raises e)
    | r => r
    end.

(** [try: body  except (KeyError, FileNotFoundError): handler] *)
Definition try_except_KeyError_FileNotFoundError {A} (body : M A) (handler : M A) : M A :=
  fun m =>
    match body m with
    | (m', Raises e) =>
        match exn_cls e with
        | KeyError | FileNotFoundError => handler m'
        | _ => (m', Raises e)
        end
    | r => r
    end.

Declare Scope script_scope.
Delimit Scope script_scope with script.
Notation "x <- c ;; k" := (bind c (fun x => k))
  (at level 100, c at next level, right associativity) : script_scope.
Notation "c ;; k" := (bind c (fun _ => k))
  (at level 100, right associativity) : script_scope.
Local Open Scope script_scope.

(** Session and screen primitives. *)

Definition emit (e : ui_event) : M unit :=
  fun m => ({| session := session m; screen := screen m ++ [e] |}, Returns tt).

Definition missing_key (key : string) : pyexn :=
  {| exn_cls := AttributeError;
     exn_text := "st.session_state has no attribute " +:+ PyStr.quote +:+ key +:+ PyStr.quote |}.

(** [st.session_state.messages] *)
Definition get_messages : M (list message) :=
  fun m =>
    match ss_messages (session m) with
    | Some l => (m, Returns l)
    | None => (m, Raises (missing_key "messages"))
    end.

(** [st.session_state.messages = l] *)
Definition set_messages (l : list message) : M unit :=
  fun m =>
    ({| session := {| ss_messages := Some l; ss_df := ss_df (session m) |};
        screen := screen m |}, Returns tt).

(** [st.session_state.df] *)
Definition get_df : M (option DataFrame) :=
  fun m =>
    match ss_df (session m) with
    | Some d => (m, Returns d)
    | None => (m, Raises (missing_key "df"))
    end.

(** [st.session_state.df = d] *)
Definition set_df (d : option DataFrame) : M unit :=
  fun m =>
    ({| session := {| ss_messages := ss_messages (session m); ss_df := Some d |};
        screen := screen m |}, Returns tt).

(** [st.session_state.messages.append(x)] *)
Definition append_message (x : message) : M unit :=
  l <- get_messages ;; set_messages (l ++ [x]).

(** ** The world outside the script *)

(** [st.secrets]: the secrets file, when there is one. *)
Inductive secrets_source :=
| NoSecretsFile
| SecretsFile (entries : gmap string string).

Record uploaded_file := { file_name : string; file_data : string }.

Record world := {
  (** the host's secret configuration *)
  secrets : secrets_source;
  (** [GEMINI_MODEL.generate_content(prompt)] followed by [.text] *)
  generate_content : string -> result string;
  (** [exec(code, {}, local_vars)], with the empty globals of the call:
      the code runs with the privileges of the process, so it may change
      the session and the screen as well as its local scope; the result
      is the scope it leaves *)
  exec : string -> gmap string pyval -> M (gmap string pyval);
  (** [pd.read_csv] and [pd.read_excel] on the bytes of a file *)
  read_csv : string -> result DataFrame;
  read_excel : string -> result DataFrame;
  (** the contents of [sample_data.csv], when the file exists *)
  sample_data : option string;
  (** [DataFrame.to_string()] *)
  to_string : DataFrame -> string
}.

(** What the user did to trigger this run of the script. *)
Record inputs := {
  uploaded : option uploaded_file;
  load_sample_clicked : bool;
  chat_input : option string
}.

(** [str(v)], as the f-strings of the script use it. *)
Definition py_str (W : world) (v : pyval) : string :=
  match v with
  | PyNone => "None"
  | PyBool true => "True"
  | PyBool false => "False"
  | PyInt z => pretty z
  | PyStr s => s
  | PyFigure spec => spec
  | PyFrame d => to_string W d
  | PyModule name => name
  end.

(** [st.secrets["google_api_key"]] *)
Definition secrets_lookup (W : world) : result string :=
  match secrets W with
  | NoSecretsFile =>
      Raises {| exn_cls := FileNotFoundError; exn_text := "No secrets found." |}
  | SecretsFile entries =>
      match entries !! "google_api_key" with
      | Some k => Returns k
      | None => Raises {| exn_cls := KeyError; exn_text := "google_api_key" |}
      end
  end.

(** [pd.read_csv("sample_data.csv")] *)
Definition read_sample (W : world) : result DataFrame :=
  match sample_data W with
  | Some data => read_csv W data
  | None =>
      Raises {| exn_cls := FileNotFoundError;
                exn_text := "[Errno 2] No such file or directory: 'sample_data.csv'" |}
  end.

(** ** The Prompt/Response Bridge and the Executor *)

(** The constant parts of the f-string of [get_ai_response], lines 34-63. *)
Definition prompt_before_head : string :=
"
    You are an expert data analyst AI. You are given a pandas DataFrame named `df`.
    The user wants to perform an analysis on this data.

    Here is the head of the DataFrame to give you context:
    ```
    ".

Definition prompt_before_query : string :=
"
    ```

    The user's request is: ".

Definition prompt_after_query : string :=
"

    Your task is to generate a single block of Python code to perform the requested analysis.
    - You **MUST** use the pandas DataFrame `df`.
    - For visualizations, you **MUST** use the `plotly.express` library and assign the figure to a variable named `fig`.
    - For data analysis or calculations, the final result should be assigned to a variable named `result`.
    - The code should be a single, runnable block.
    - **DO NOT** include any explanations, comments, or markdown formatting around the code. Only output the raw Python code.

    Example for a plot:
    ```python
    fig = px.bar(df, x='Region', y='Sales', title='Total Sales by Region')
    ```

    Example for a calculation:
    ```python
    result = df['Sales'].sum()
    ```
    
    Now, generate the Python code for the user's request.
    ".

Definition build_prompt (df_head user_query : string) : string :=
  prompt_before_head +:+ df_head +:+ prompt_before_query
  +:+ PyStr.quote +:+ user_query +:+ PyStr.quote +:+ prompt_after_query.

(** A Python tuple is the list of its components. *)
Definition pytuple := list pyval.

Section Script.

Context (W : world).

(** [local_vars], line 79: the scope handed to [exec]. *)
Definition local_vars (df : DataFrame) : gmap string pyval :=
  <["df" := PyFrame df]>
    (<["pd" := PyModule "pandas"]>
       (<["px" := PyModule "plotly.express"]>
          (<["st" := PyModule "streamlit"]> ∅))).

(** [local_vars.get(key, None)] *)
Definition scope_get (key : string) (vars : gmap string pyval) : pyval :=
  default PyNone (vars !! key).

(** [execute_code], lines 73-90. *)
Definition execute_code (code : string) (df : DataFrame) : M pytuple :=
  try_except_Exception
    (vars <- exec W code (local_vars df) ;;
     let fig := scope_get "fig" vars in
     let result := scope_get "result" vars in
     ret [fig; result; PyStr code])
    (fun e => ret [PyNone; PyStr ("Error executing code: " +:+ exn_text e); PyStr code]).

(** Line 67: [response.text.strip().replace('```python', '').replace('```', '')]. *)
Definition code_to_execute (text : string) : string :=
  PyStr.replace PyStr.fence EmptyString
    (PyStr.replace PyStr.fence_python EmptyString (PyStr.strip text)).

(** [get_ai_response], lines 27-70. *)
Definition get_ai_response (df : DataFrame) (user_query : string) : M pytuple :=
  let df_head := to_string W (head df) in
  let prompt := build_prompt df_head user_query in
  try_except_Exception
    (text <- lift (generate_content W prompt) ;;
     execute_code (code_to_execute text) df)
    (fun e => ret [PyNone; PyStr ("An error occurred with the AI model: " +:+ exn_text e)]).

(** [st.stop()] *)
Definition st_stop {A} : M A :=
  raise {| exn_cls := StopException; exn_text := EmptyString |}.

(** Lines 17-23: the API configuration. *)
Definition configure : M unit :=
  try_except_KeyError_FileNotFoundError
    (_ <- lift (secrets_lookup W) ;; ret tt)
    (emit (StError "**Warning:** Google API key not found.") ;;
     emit (StInfo "Please add your Google API key to your Streamlit secrets. Name it `google_api_key`.") ;;
     st_stop).

(** Lines 99-102. *)
Definition init_session : M unit :=
  fun m =>
    ({| session :=
          {| ss_messages := Some (default [] (ss_messages (session m)));
             ss_df := Some (default None (ss_df (session m))) |};
        screen := screen m |}, Returns tt).

(** Lines 111-114: the reader is chosen by the file name. *)
Definition read_upload (f : uploaded_file) : result DataFrame :=
  if PyStr.endswith ".csv" (file_name f)
  then read_csv W (file_data f)
  else read_excel W (file_data f).

(** Lines 109-120: the uploaded file, if there is one. *)
Definition upload_step (i : inputs) : M unit :=
  match uploaded i with
  | Some f =>
      try_except_Exception
        (d <- lift (read_upload f) ;;
         set_df (Some d) ;;
         emit (StSuccess "File uploaded successfully!") ;;
         set_messages [])
        (fun e =>
           emit (StError ("Error reading file: " +:+ exn_text e)) ;;
           set_df None)
  | None => ret tt
  end.

(** Lines 123-126: the "Load Sample Data" button. *)
Definition sample_step (i : inputs) : M unit :=
  if load_sample_clicked i then
    d <- lift (read_sample W) ;;
    set_df (Some d) ;;
    emit (StSuccess "Sample data loaded!") ;;
    set_messages []
  else ret tt.

(** Lines 105-126: the sidebar. *)
Definition sidebar (i : inputs) : M unit :=
  emit (StHeader "1. Upload Your Data") ;;
  upload_step i ;;
  sample_step i.

(** Lines 138-143: the transcript so far. *)
Fixpoint show_messages (l : list message) : M unit :=
  match l with
  | [] => ret tt
  | x :: l' =>
      emit (StChatMessage (msg_role x)) ;;
      emit (StMarkdown (msg_content x)) ;;
      match msg_code x with
      | Some c => emit (StExpander "View Generated Code") ;; emit (StCode c)
      | None => ret tt
      end ;;
      show_messages l'
  end.

(** [fig, result, code = t], line 155. *)
Definition unpack3 (t : pytuple) : M (pyval * pyval * pyval) :=
  match t with
  | [a; b; c] => ret (a, b, c)
  | _ =>
      raise {| exn_cls := ValueError;
               exn_text :=
                 if Nat.ltb (length t) 3
                 then "not enough values to unpack (expected 3, got " +:+ pretty (length t) +:+ ")"
                 else "too many values to unpack (expected 3)" |}
  end.

(** [st.plotly_chart(fig, use_container_width=True)], line 159: plotly
    draws a figure and refuses every other value of the model. *)
Definition st_plotly_chart (fig : pyval) : M unit :=
  match fig with
  | PyFigure _ => emit (StPlotlyChart fig)
  | _ =>
      raise {| exn_cls := OtherException "PlotlyError";
               exn_text := "The `figure_or_data` positional argument must be `dict`-like, `list`-like, or an instance of plotly.graph_objs.Figure" |}
  end.

(** Lines 157-175: show the outcome of the turn and record it. *)
Definition render (fig result code : pyval) : M unit :=
  chart <- lift (py_truth fig) ;;
  ai_response_content <-
    (if (chart : bool) then
       st_plotly_chart fig ;;
       ret "Here is the visualization you requested."
     else if is_not_None result then
       emit (StWrite (PyStr "Here is the result of your analysis:")) ;;
       emit (StWrite result) ;;
       ret "I've completed the calculation for you."
     else
       emit (StError ("Sorry, I ran into an issue. " +:+ PyStr.newline +:+ PyStr.newline
                      +:+ py_str W result)) ;;
       ret "I couldn't complete that request. Please try rephrasing or asking something else.") ;;
  append_message
    {| msg_role := assistant; msg_content := ai_response_content; msg_code := Some code |}.

(** Lines 146-175: one question. *)
Definition chat_turn (prompt : string) : M unit :=
  append_message {| msg_role := user; msg_content := prompt; msg_code := None |} ;;
  emit (StChatMessage user) ;;
  emit (StMarkdown prompt) ;;
  emit (StChatMessage assistant) ;;
  emit (StSpinner "DataPilot is thinking...") ;;
  df <- get_df ;;
  t <- match df with
       | Some d => get_ai_response d prompt
       | None =>
           raise {| exn_cls := AttributeError;
                    exn_text := "'NoneType' object has no attribute 'head'" |}
       end ;;
  frc <- unpack3 t ;;
  render frc.1.1 frc.1.2 frc.2.

(** The whole script, run once per user action. *)
Definition script (i : inputs) : M unit :=
  configure ;;
  emit (StTitle "DataPilot AI") ;;
  emit (StMarkdown "Your AI-powered assistant for data analysis and visualization. Upload your data and start asking questions!") ;;
  init_session ;;
  sidebar i ;;
  df <- get_df ;;
  match df with
  | Some d =>
      emit (StHeader "2. Data Preview") ;;
      emit (StDataframe (head d)) ;;
      emit (StHeader "Chat with Your Data") ;;
      l <- get_messages ;;
      show_messages l ;;
      match chat_input i with
      | Some prompt =>
          if negb (String.eqb prompt EmptyString) then chat_turn prompt else ret tt
      | None => ret tt
      end
  | None =>
      emit (StInfo "Please upload a CSV or Excel file, or load the sample data to get started.")
  end.

End Script.

(** ** Notions used in the statements *)

(** The API key the host configuration holds, if any. *)
Definition credential (W : world) : option string :=
  match secrets W with
  | NoSecretsFile => None
  | SecretsFile entries => entries !! "google_api_key"
  end.

(** The machine after a turn step: transcript [l], [events] added to the
    screen. *)
Definition recorded (m : machine) (l : list message) (events : list ui_event) : machine :=
  {| session := {| ss_messages := Some l; ss_df := ss_df (session m) |};
     screen := screen m ++ events |}.

Definition chart_summary : string := "Here is the visualization you requested.".
Definition result_summary : string := "I've completed the calculation for you.".
Definition failure_summary : string :=
  "I couldn't complete that request. Please try rephrasing or asking something else.".

Definition reply_record (content : string) (code : pyval) : message :=
  {| msg_role := assistant; msg_content := content; msg_code := Some code |}.

(** The machine when the Bridge is called: the question is recorded and
    shown, and the spinner is on. *)
Definition asked (m : machine) (l : list message) (prompt : string) : machine :=
  recorded m (l ++ [{| msg_role := user; msg_content := prompt; msg_code := None |}])
    [StChatMessage user; StMarkdown prompt; StChatMessage assistant;
     StSpinner "DataPilot is thinking..."].

(** What the transcript loop shows for one record. *)
Definition shown (x : message) : list ui_event :=
  [StChatMessage (msg_role x); StMarkdown (msg_content x)]
  ++ match msg_code x with
     | Some c => [StExpander "View Generated Code"; StCode c]
     | None => []
     end.

(** Following the spec's words: the reply with the fence markers taken
    out, and nothing else. *)
Definition fence_markers_removed (text : string) : string :=
  PyStr.replace PyStr.fence EmptyString (PyStr.replace PyStr.fence_python EmptyString text).

(** What every run puts on the page before the session is looked at. *)
Definition page_top : list ui_event :=
  [StTitle "DataPilot AI";
   StMarkdown "Your AI-powered assistant for data analysis and visualization. Upload your data and start asking questions!";
   StHeader "1. Upload Your Data"].

(** The preview and the chat header shown once a table is loaded. *)
Definition page_table (d : DataFrame) : list ui_event :=
  [StHeader "2. Data Preview"; StDataframe (head d); StHeader "Chat with Your Data"].

Definition user_record (prompt : string) : message :=
  {| msg_role := user; msg_content := prompt; msg_code := None |}.

(** The executed code leaves [st.session_state] alone. *)
Definition exec_keeps_session (W : world) : Prop :=
  forall code vars m, session (exec W code vars m).1 = session m.

(** The code executed in the turn that answers [prompt], started on
    machine [m] with transcript [l], leaves [st.session_state] alone. *)
Definition turn_keeps_session (W : world) (prompt : string) (m : machine)
    (l : list message) : Prop :=
  forall d text,
    ss_df (session m) = Some (Some d) ->
    generate_content W (build_prompt (to_string W (head d)) prompt) = Returns text ->
    session (exec W (code_to_execute text) (local_vars d) (asked m l prompt)).1
    = session (asked m l prompt).

(** The characters of a string, in order. *)
Definition chars (s : string) : list ascii := list_ascii_of_string s.

(** Nothing but white space. *)
Fixpoint all_space (s : string) : bool :=
  match s with
  | EmptyString => true
  | String c r => PyStr.isspace c && all_space r
  end.

(** ** A small world for the examples

    The model reply is stubbed, [exec] knows a handful of programs, and
    the readers are a stand-in for pandas that is right on the files
    used below. *)

Module Demo.

Definition sales : DataFrame :=
  {| df_columns := ["Region"; "Sales"];
     df_rows := [["North"; "10"]; ["South"; "32"]] |}.

Definition zero_division : pyexn :=
  {| exn_cls := OtherException "ZeroDivisionError"; exn_text := "division by zero" |}.

Definition system_exit : pyexn :=
  {| exn_cls := SystemExit; exn_text := EmptyString |}.

Definition quota : pyexn :=
  {| exn_cls := OtherException "ResourceExhausted"; exn_text := "429 quota exceeded" |}.

(** What Python does with these programs; any other text is taken for
    a syntax error. *)
Definition run (code : string) (vars : gmap string pyval) : M (gmap string pyval) :=
  if String.eqb code "x = 1" then ret (<["x" := PyInt 1]> vars)
  else if String.eqb code "result = 42" then ret (<["result" := PyInt 42]> vars)
  else if String.eqb code (PyStr.newline +:+ "result = 42" +:+ PyStr.newline)
       then ret (<["result" := PyInt 42]> vars)
  else if String.eqb code "fig = px.bar(df, x='Region', y='Sales')"
       then ret (<["fig" := PyFigure "bar Region/Sales"]> vars)
  else if String.eqb code "1/0" then raise zero_division
  else if String.eqb code "raise SystemExit" then raise system_exit
  else raise {| exn_cls := OtherException "SyntaxError"; exn_text := "invalid syntax" |}.

(** One table with the text as its only header, or the parser's
    complaint about an empty file. *)
Definition parse_csv (data : string) : result DataFrame :=
  if String.eqb data EmptyString
  then Raises {| exn_cls := OtherException "EmptyDataError";
                 exn_text := "No columns to parse from file" |}
  else if String.eqb data "Region,Sales" then Returns sales
  else Returns {| df_columns := [data]; df_rows := [] |}.

Definition parse_excel (data : string) : result DataFrame :=
  Raises {| exn_cls := OtherException "BadZipFile"; exn_text := "File is not a zip file" |}.

Definition show_table (d : DataFrame) : string :=
  String.concat " " (df_columns d).

Definition world (key : option string) (reply : result string) (sample : option string)
  : world :=
  {| secrets := match key with
                | Some k => SecretsFile {[ "google_api_key" := k ]}
                | None => NoSecretsFile
                end;
     generate_content := fun _ => reply;
     exec := run;
     read_csv := parse_csv;
     read_excel := parse_excel;
     sample_data := sample;
     to_string := show_table |}.

End Demo.

(** The same world with a program that reaches into the session through
    [st] and empties the transcript. *)
Definition meddling_world (reply : result string) : world :=
  {| secrets := SecretsFile {[ "google_api_key" := "k" ]};
     generate_content := fun _ => reply;
     exec := fun code vars =>
               if String.eqb code "st.session_state.messages = []"
               then (_ <- set_messages [] ;; ret vars)
               else Demo.run code vars;
     read_csv := Demo.parse_csv;
     read_excel := Demo.parse_excel;
     sample_data := None;
     to_string := Demo.show_table |}.

(** The same world with one more program: [pass], which does nothing. *)
Definition pass_world (reply : result string) : world :=
  {| secrets := SecretsFile {[ "google_api_key" := "k" ]};
     generate_content := fun _ => reply;
     exec := fun code vars => if String.eqb code "pass" then ret vars else Demo.run code vars;
     read_csv := Demo.parse_csv;
     read_excel := Demo.parse_excel;
     sample_data := None;
     to_string := Demo.show_table |}.

(** ** String functions on examples *)

Example strip_ex : PyStr.strip "  a b  " = "a b".
Proof. reflexivity. Qed.

Example replace_ex : PyStr.replace "ab" "-" "xababyab" = "x--y-".
Proof. reflexivity. Qed.

Example replace_overlap_ex : PyStr.replace "aa" "b" "aaaaa" = "bba".
Proof. reflexivity. Qed.

Example endswith_ex :
  PyStr.endswith ".csv" "sales.csv" = true /\ PyStr.endswith ".csv" "SALES.CSV" = false.
Proof. split; reflexivity. Qed.

(** ** Unfolding the monad *)

Lemma bind_eq {A B} (c : M A) (k : A -> M B) (m : machine) :
  bind c k m =
  match c m with
  | (m', Returns a) => k a m'
  | (m', Raises e) => (m', Raises e)
  | (m', Diverges) => (m', Diverges)
  end.
Proof. reflexivity. Qed.

Lemma bind_lift_returns {A B} (r : result A) (a : A) (k : A -> M B) (m : machine) :
  r = Returns a -> bind (lift r) k m = k a m.
Proof. intros ->. reflexivity. Qed.

Lemma bind_lift_raises {A B} (r : result A) (e : pyexn) (k : A -> M B) (m : machine) :
  r = Raises e -> bind (lift r) k m = (m, Raises e).
Proof. intros ->. reflexivity. Qed.

Lemma try_except_caught {A} (body : M A) (h : pyexn -> M A) (m m' : machine) (e : pyexn) :
  body m = (m', Raises e) -> is_Exception (exn_cls e) = true ->
  try_except_Exception body h m = h e m'.
Proof. intros Hb He. unfold try_except_Exception. rewrite Hb, He. reflexivity. Qed.

Lemma try_except_passed {A} (body : M A) (h : pyexn -> M A) (m m' : machine) (e : pyexn) :
  body m = (m', Raises e) -> is_Exception (exn_cls e) = false ->
  try_except_Exception body h m = (m', Raises e).
Proof. intros Hb He. unfold try_except_Exception. rewrite Hb, He. reflexivity. Qed.

Lemma try_except_returns {A} (body : M A) (h : pyexn -> M A) (m m' : machine) (a : A) :
  body m = (m', Returns a) -> try_except_Exception body h m = (m', Returns a).
Proof. intros Hb. unfold try_except_Exception. rewrite Hb. reflexivity. Qed.

(** ** The scope of the executed code *)

Lemma local_vars_dom (df : DataFrame) :
  dom (local_vars df) = ({[ "df"; "pd"; "px"; "st" ]} : gset string).
Proof. unfold local_vars. rewrite !dom_insert_L, dom_empty_L. set_solver. Qed.

(** C2, as the spec has it, fails: the scope has a fourth name, [st],
    so its names are not just [df], [pd] and [px]. *)
Lemma local_vars_not_three :
  local_vars Demo.sales !! "st" = Some (PyModule "streamlit")
  /\ dom (local_vars Demo.sales) <> ({[ "df"; "pd"; "px" ]} : gset string).
Proof.
  split; [reflexivity |].
  rewrite local_vars_dom. intros H.
  assert (Hin : "st" ∈ ({[ "df"; "pd"; "px" ]} : gset string)).
  { rewrite <- H. set_solver. }
  set_solver.
Qed.

(** C2 (amended): for every code string and table, the scope handed to
    [exec] binds exactly four names: [df] (the table), [pd], [px] and
    [st] (the handles of pandas, plotly.express and Streamlit); and
    [execute_code] consults [exec] on that scope only. *)
Theorem local_vars_exactly_four (W W' : world) (code : string) (df : DataFrame) (m : machine) :
  dom (local_vars df) = ({[ "df"; "pd"; "px"; "st" ]} : gset string)
  /\ local_vars df !! "df" = Some (PyFrame df)
  /\ local_vars df !! "pd" = Some (PyModule "pandas")
  /\ local_vars df !! "px" = Some (PyModule "plotly.express")
  /\ local_vars df !! "st" = Some (PyModule "streamlit")
  /\ (exec W code (local_vars df) m = exec W' code (local_vars df) m ->
      execute_code W code df m = execute_code W' code df m).
Proof.
  split; [apply local_vars_dom |].
  repeat split; try reflexivity.
  intros H. unfold execute_code, try_except_Exception.
  rewrite !bind_eq, H. reflexivity.
Qed.

Lemma local_vars_exactly_four_witness :
  let W := Demo.world (Some "k") (Returns "x = 1") None in
  let W' := Demo.world None (Raises Demo.quota) (Some "Region,Sales") in
  let m := {| session := {| ss_messages := Some []; ss_df := Some (Some Demo.sales) |};
              screen := [] |} in
  execute_code W "x = 1" Demo.sales m = execute_code W' "x = 1" Demo.sales m.
Proof.
  intros W W' m.
  exact (proj2 (proj2 (proj2 (proj2 (proj2
    (local_vars_exactly_four W W' "x = 1" Demo.sales m))))) eq_refl).
Defined.

(** ** Startup: the credential *)

Lemma configure_without_credential (W : world) (m : machine) :
  credential W = None ->
  configure W m =
  ({| session := session m;
      screen := screen m
                ++ [StError "**Warning:** Google API key not found.";
                    StInfo "Please add your Google API key to your Streamlit secrets. Name it `google_api_key`."] |},
   Raises {| exn_cls := StopException; exn_text := EmptyString |}).
Proof.
  unfold credential, configure, try_except_KeyError_FileNotFoundError, secrets_lookup.
  intros H. rewrite bind_eq. unfold lift.
  destruct (secrets W) as [|entries]; [| rewrite H]; cbn;
    rewrite <- app_assoc; reflexivity.
Qed.

(** C8: when the API key is absent at startup (no secrets file, or a
    file without the key), a run of the script shows the setup error and
    the hint and stops there, whatever the user did: the session store is
    left as it was, and nothing of the sidebar or of the chat reaches the
    screen. *)
Theorem missing_credential_halts (W : world) (i : inputs) (m : machine) :
  credential W = None ->
  script W i m =
  ({| session := session m;
      screen := screen m
                ++ [StError "**Warning:** Google API key not found.";
                    StInfo "Please add your Google API key to your Streamlit secrets. Name it `google_api_key`."] |},
   Raises {| exn_cls := StopException; exn_text := EmptyString |}).
Proof.
  intros H. unfold script. rewrite bind_eq, (configure_without_credential W m H).
  reflexivity.
Qed.

Lemma missing_credential_halts_witness :
  let W := Demo.world None (Returns "result = 42") (Some "Region,Sales") in
  let i := {| uploaded := Some {| file_name := "sales.csv"; file_data := "Region,Sales" |};
              load_sample_clicked := true;
              chat_input := Some "What is the total?" |} in
  let m := {| session := {| ss_messages := None; ss_df := None |}; screen := [] |} in
  credential W = None
  /\ script W i m =
     ({| session := session m;
         screen := [StError "**Warning:** Google API key not found.";
                    StInfo "Please add your Google API key to your Streamlit secrets. Name it `google_api_key`."] |},
      Raises {| exn_cls := StopException; exn_text := EmptyString |}).
Proof.
  intros W i m. split; [reflexivity |].
  exact (missing_credential_halts W i m eq_refl).
Defined.

(** With the key present the configuration step goes through. *)
Lemma configure_with_credential (W : world) (m : machine) (k : string) :
  credential W = Some k -> configure W m = (m, Returns tt).
Proof.
  unfold credential, configure, try_except_KeyError_FileNotFoundError, secrets_lookup.
  intros H. rewrite bind_eq. unfold lift.
  destruct (secrets W) as [|entries]; [discriminate |]. rewrite H. reflexivity.
Qed.

(** ** The Data Loader *)

Section Loader.

Context (W : world).

Lemma upload_step_loaded (i : inputs) (m : machine) (f : uploaded_file) (d : DataFrame) :
  uploaded i = Some f -> read_upload W f = Returns d ->
  upload_step W i m =
  ({| session := {| ss_messages := Some []; ss_df := Some (Some d) |};
      screen := screen m ++ [StSuccess "File uploaded successfully!"] |}, Returns tt).
Proof.
  intros Hf Hr. unfold upload_step. rewrite Hf.
  apply try_except_returns. rewrite (bind_lift_returns _ d) by exact Hr.
  reflexivity.
Qed.

Lemma upload_step_failed (i : inputs) (m : machine) (f : uploaded_file) (e : pyexn) :
  uploaded i = Some f -> read_upload W f = Raises e -> is_Exception (exn_cls e) = true ->
  upload_step W i m =
  ({| session := {| ss_messages := ss_messages (session m); ss_df := Some None |};
      screen := screen m ++ [StError ("Error reading file: " +:+ exn_text e)] |}, Returns tt).
Proof.
  intros Hf Hr He. unfold upload_step. rewrite Hf.
  rewrite (try_except_caught _ _ m m e); [reflexivity | | exact He].
  apply bind_lift_raises, Hr.
Qed.

Lemma upload_step_nothing (i : inputs) (m : machine) :
  uploaded i = None -> upload_step W i m = (m, Returns tt).
Proof. intros Hf. unfold upload_step. rewrite Hf. reflexivity. Qed.

Lemma sample_step_loaded (i : inputs) (m : machine) (d : DataFrame) :
  load_sample_clicked i = true -> read_sample W = Returns d ->
  sample_step W i m =
  ({| session := {| ss_messages := Some []; ss_df := Some (Some d) |};
      screen := screen m ++ [StSuccess "Sample data loaded!"] |}, Returns tt).
Proof.
  intros Hc Hr. unfold sample_step. rewrite Hc.
  rewrite (bind_lift_returns _ d) by exact Hr. reflexivity.
Qed.

(** The sample branch has no handler: a reader error leaves the step as
    it is, with the machine untouched. *)
Lemma sample_step_failed (i : inputs) (m : machine) (e : pyexn) :
  load_sample_clicked i = true -> read_sample W = Raises e ->
  sample_step W i m = (m, Raises e).
Proof.
  intros Hc Hr. unfold sample_step. rewrite Hc.
  apply bind_lift_raises, Hr.
Qed.

Lemma sample_step_idle (i : inputs) (m : machine) :
  load_sample_clicked i = false -> sample_step W i m = (m, Returns tt).
Proof. intros Hc. unfold sample_step. rewrite Hc. reflexivity. Qed.

Lemma sidebar_eq (i : inputs) (m : machine) :
  sidebar W i m =
  match upload_step W i
          {| session := session m; screen := screen m ++ [StHeader "1. Upload Your Data"] |} with
  | (m', Returns _) => sample_step W i m'
  | (m', Raises e) => (m', Raises e)
  | (m', Diverges) => (m', Diverges)
  end.
Proof. reflexivity. Qed.

(** C6: whatever the transcript was, a load that succeeds replaces the
    table and leaves the transcript empty: right after the upload branch
    when the uploaded file parses, right after the sample branch when
    the sample file parses, and so at the end of the sidebar when the
    load was the only thing the user did. *)
Theorem load_resets_transcript (i : inputs) (m : machine) (d : DataFrame) :
  (forall f, uploaded i = Some f -> read_upload W f = Returns d ->
     session (upload_step W i m).1 = {| ss_messages := Some []; ss_df := Some (Some d) |}
     /\ (upload_step W i m).2 = Returns tt)
  /\ (load_sample_clicked i = true -> read_sample W = Returns d ->
     session (sample_step W i m).1 = {| ss_messages := Some []; ss_df := Some (Some d) |}
     /\ (sample_step W i m).2 = Returns tt)
  /\ (forall f, uploaded i = Some f -> read_upload W f = Returns d ->
     load_sample_clicked i = false ->
     session (sidebar W i m).1 = {| ss_messages := Some []; ss_df := Some (Some d) |}
     /\ (sidebar W i m).2 = Returns tt)
  /\ (uploaded i = None -> load_sample_clicked i = true -> read_sample W = Returns d ->
     session (sidebar W i m).1 = {| ss_messages := Some []; ss_df := Some (Some d) |}
     /\ (sidebar W i m).2 = Returns tt).
Proof.
  repeat split.
  - rewrite (upload_step_loaded i m f d); auto.
  - rewrite (upload_step_loaded i m f d); auto.
  - rewrite (sample_step_loaded i m d); auto.
  - rewrite (sample_step_loaded i m d); auto.
  - rewrite sidebar_eq, (upload_step_loaded i _ f d), sample_step_idle; auto.
  - rewrite sidebar_eq, (upload_step_loaded i _ f d), sample_step_idle; auto.
  - rewrite sidebar_eq, upload_step_nothing, (sample_step_loaded i _ d); auto.
  - rewrite sidebar_eq, upload_step_nothing, (sample_step_loaded i _ d); auto.
Qed.

(** C10: when the uploaded file fails to parse, the handler reports the
    error and sets the table to None, and the transcript stays as it
    was; the successful upload, by contrast, empties it. *)
Theorem failed_upload_keeps_transcript (i : inputs) (m : machine) (f : uploaded_file) :
  uploaded i = Some f ->
  (forall e, read_upload W f = Raises e -> is_Exception (exn_cls e) = true ->
     upload_step W i m =
     ({| session := {| ss_messages := ss_messages (session m); ss_df := Some None |};
         screen := screen m ++ [StError ("Error reading file: " +:+ exn_text e)] |},
      Returns tt)
     /\ (load_sample_clicked i = false ->
         session (sidebar W i m).1
         = {| ss_messages := ss_messages (session m); ss_df := Some None |}
         /\ (sidebar W i m).2 = Returns tt))
  /\ (forall d, read_upload W f = Returns d ->
     ss_messages (session (upload_step W i m).1) = Some []).
Proof.
  intros Hf. split.
  - intros e Hr He. split; [apply (upload_step_failed i m f e); assumption |].
    intros Hc. rewrite sidebar_eq, (upload_step_failed i _ f e), sample_step_idle; auto.
  - intros d Hr. rewrite (upload_step_loaded i m f d); auto.
Qed.

End Loader.

Lemma load_resets_transcript_witness :
  let W := Demo.world (Some "k") (Returns "result = 42") (Some "Region,Sales") in
  let old := [{| msg_role := user; msg_content := "hi"; msg_code := None |}] in
  let m := {| session := {| ss_messages := Some old; ss_df := Some None |}; screen := [] |} in
  let f := {| file_name := "sales.csv"; file_data := "Region,Sales" |} in
  let i1 := {| uploaded := Some f; load_sample_clicked := false; chat_input := None |} in
  let i2 := {| uploaded := None; load_sample_clicked := true; chat_input := None |} in
  let loaded := {| ss_messages := Some []; ss_df := Some (Some Demo.sales) |} in
  (session (upload_step W i1 m).1 = loaded /\ (upload_step W i1 m).2 = Returns tt)
  /\ (session (sample_step W i2 m).1 = loaded /\ (sample_step W i2 m).2 = Returns tt)
  /\ (session (sidebar W i1 m).1 = loaded /\ (sidebar W i1 m).2 = Returns tt)
  /\ (session (sidebar W i2 m).1 = loaded /\ (sidebar W i2 m).2 = Returns tt).
Proof.
  intros W old m f i1 i2 loaded.
  pose proof (load_resets_transcript W i1 m Demo.sales) as (U1 & _ & S1 & _).
  pose proof (load_resets_transcript W i2 m Demo.sales) as (_ & U2 & _ & S2).
  split; [exact (U1 f eq_refl eq_refl) |].
  split; [exact (U2 eq_refl eq_refl) |].
  split; [exact (S1 f eq_refl eq_refl eq_refl) |].
  exact (S2 eq_refl eq_refl eq_refl).
Defined.

Lemma failed_upload_keeps_transcript_witness :
  let W := Demo.world (Some "k") (Returns "result = 42") None in
  let old := [{| msg_role := user; msg_content := "hi"; msg_code := None |}] in
  let m := {| session := {| ss_messages := Some old; ss_df := Some (Some Demo.sales) |};
              screen := [] |} in
  let bad := {| file_name := "empty.csv"; file_data := EmptyString |} in
  let good := {| file_name := "sales.csv"; file_data := "Region,Sales" |} in
  let i := {| uploaded := Some bad; load_sample_clicked := false; chat_input := None |} in
  let j := {| uploaded := Some good; load_sample_clicked := false; chat_input := None |} in
  (upload_step W i m =
   ({| session := {| ss_messages := Some old; ss_df := Some None |};
       screen := [StError "Error reading file: No columns to parse from file"] |}, Returns tt)
   /\ session (sidebar W i m).1 = {| ss_messages := Some old; ss_df := Some None |}
   /\ (sidebar W i m).2 = Returns tt)
  /\ ss_messages (session (upload_step W j m).1) = Some [].
Proof.
  intros W old m bad good i j.
  pose proof (failed_upload_keeps_transcript W i m bad eq_refl) as [F _].
  pose proof (failed_upload_keeps_transcript W j m good eq_refl) as [_ G].
  destruct (F _ eq_refl eq_refl) as [F1 F2].
  split; [split; [exact F1 | exact (F2 eq_refl)] |].
  exact (G Demo.sales eq_refl).
Defined.

(** C7, the sample path: with a table loaded and an empty (unparsable)
    [sample_data.csv], pressing "Load Sample Data" makes the reader's
    error leave the sidebar and the script; no [st.error] is shown and
    the old table is still in the session.  The upload path, on the same
    bytes, catches the error, reports it and clears the table. *)
Theorem sample_load_error_escapes :
  let W := Demo.world (Some "k") (Returns "result = 42") (Some EmptyString) in
  let old := [{| msg_role := user; msg_content := "hi"; msg_code := None |}] in
  let m := {| session := {| ss_messages := Some old; ss_df := Some (Some Demo.sales) |};
              screen := [] |} in
  let err := {| exn_cls := OtherException "EmptyDataError";
                exn_text := "No columns to parse from file" |} in
  let i := {| uploaded := None; load_sample_clicked := true; chat_input := None |} in
  let j := {| uploaded := Some {| file_name := "empty.csv"; file_data := EmptyString |};
              load_sample_clicked := false; chat_input := None |} in
  sidebar W i m =
    ({| session := session m; screen := [StHeader "1. Upload Your Data"] |}, Raises err)
  /\ (script W i m).2 = Raises err
  /\ session (script W i m).1 = session m
  /\ sidebar W j m =
     ({| session := {| ss_messages := Some old; ss_df := Some None |};
         screen := [StHeader "1. Upload Your Data";
                    StError "Error reading file: No columns to parse from file"] |},
      Returns tt).
Proof. repeat split. Qed.

(** ** The Executor *)

Section Executor.

Context (W : world).

Lemma execute_code_returned (code : string) (df : DataFrame) (m m' : machine)
    (vars : gmap string pyval) :
  exec W code (local_vars df) m = (m', Returns vars) ->
  execute_code W code df m
  = (m', Returns [scope_get "fig" vars; scope_get "result" vars; PyStr code]).
Proof.
  intros H. unfold execute_code. apply try_except_returns.
  rewrite bind_eq, H. reflexivity.
Qed.

Lemma execute_code_caught (code : string) (df : DataFrame) (m m' : machine) (e : pyexn) :
  exec W code (local_vars df) m = (m', Raises e) -> is_Exception (exn_cls e) = true ->
  execute_code W code df m
  = (m', Returns [PyNone; PyStr ("Error executing code: " +:+ exn_text e); PyStr code]).
Proof.
  intros H He. unfold execute_code.
  rewrite (try_except_caught _ _ m m' e); [reflexivity | | exact He].
  rewrite bind_eq, H. reflexivity.
Qed.

Lemma execute_code_passed (code : string) (df : DataFrame) (m m' : machine) (e : pyexn) :
  exec W code (local_vars df) m = (m', Raises e) -> is_Exception (exn_cls e) = false ->
  execute_code W code df m = (m', Raises e).
Proof.
  intros H He. unfold execute_code. apply try_except_passed; [| exact He].
  rewrite bind_eq, H. reflexivity.
Qed.

Lemma execute_code_hangs (code : string) (df : DataFrame) (m m' : machine) :
  exec W code (local_vars df) m = (m', Diverges) ->
  execute_code W code df m = (m', Diverges).
Proof.
  intros H. unfold execute_code, try_except_Exception.
  rewrite bind_eq, H. reflexivity.
Qed.

(** Whatever [execute_code] hands back is a triple that ends with the
    code, and what it lets through is no [Exception]. *)
Lemma execute_code_cases (code : string) (df : DataFrame) (m : machine) :
  (exists m' fig result, execute_code W code df m = (m', Returns [fig; result; PyStr code]))
  \/ (exists m' e, execute_code W code df m = (m', Raises e)
                   /\ is_Exception (exn_cls e) = false)
  \/ (exists m', execute_code W code df m = (m', Diverges)).
Proof.
  destruct (exec W code (local_vars df) m) as [m' [vars | e |]] eqn:H.
  - left. eauto using execute_code_returned.
  - destruct (is_Exception (exn_cls e)) eqn:He.
    + left. eauto using execute_code_caught.
    + right; left. eauto using execute_code_passed.
  - right; right. eauto using execute_code_hangs.
Qed.

(** ** The Bridge *)

Lemma get_ai_response_model_failed (df : DataFrame) (user_query : string) (m : machine)
    (e : pyexn) :
  generate_content W (build_prompt (to_string W (head df)) user_query) = Raises e ->
  is_Exception (exn_cls e) = true ->
  get_ai_response W df user_query m
  = (m, Returns [PyNone; PyStr ("An error occurred with the AI model: " +:+ exn_text e)]).
Proof.
  intros H He. unfold get_ai_response.
  rewrite (try_except_caught _ _ m m e); [reflexivity | | exact He].
  apply bind_lift_raises, H.
Qed.

(** With a reply in hand the Bridge is the Executor on the cleaned
    reply: the outer handler has nothing left to catch. *)
Lemma get_ai_response_replied (df : DataFrame) (user_query text : string) (m : machine) :
  generate_content W (build_prompt (to_string W (head df)) user_query) = Returns text ->
  get_ai_response W df user_query m = execute_code W (code_to_execute text) df m.
Proof.
  intros H. unfold get_ai_response.
  assert (Hb : forall k : string -> M pytuple,
             bind (lift (generate_content W (build_prompt (to_string W (head df)) user_query))) k m
             = k text m) by (intros k; apply bind_lift_returns, H).
  destruct (execute_code_cases (code_to_execute text) df m)
    as [(m' & fig & result & E) | [(m' & e & E & He) | (m' & E)]].
  - rewrite E. apply try_except_returns. rewrite Hb. exact E.
  - rewrite E. apply try_except_passed; [| exact He]. rewrite Hb. exact E.
  - rewrite E. unfold try_except_Exception. rewrite Hb, E. reflexivity.
Qed.

(** ** Showing and recording the outcome *)


Lemma render_result (fig result code : pyval) (m : machine) (l : list message) :
  py_truth fig = Returns false -> is_not_None result = true ->
  ss_messages (session m) = Some l ->
  render W fig result code m
  = (recorded m (l ++ [reply_record result_summary code])
       [StWrite (PyStr "Here is the result of your analysis:"); StWrite result],
     Returns tt).
Proof.
  intros Ht Hn Hl. unfold render. rewrite (bind_lift_returns _ false) by exact Ht.
  rewrite Hn.
  unfold append_message, get_messages, set_messages, emit, bind, ret, recorded; cbn.
  rewrite Hl, <- app_assoc. reflexivity.
Qed.

Lemma render_failure (fig code : pyval) (m : machine) (l : list message) :
  py_truth fig = Returns false -> ss_messages (session m) = Some l ->
  render W fig PyNone code m
  = (recorded m (l ++ [reply_record failure_summary code])
       [StError ("Sorry, I ran into an issue. " +:+ PyStr.newline +:+ PyStr.newline +:+ "None")],
     Returns tt).
Proof.
  intros Ht Hl. unfold render. rewrite (bind_lift_returns _ false) by exact Ht.
  unfold append_message, get_messages, set_messages, emit, bind, ret, recorded; cbn.
  rewrite Hl. reflexivity.
Qed.

(** A turn that gets through [render] has put the code it was given in
    the last record of the transcript. *)
Lemma render_records_code (fig result code : pyval) (m m' : machine) :
  render W fig result code m = (m', Returns tt) ->
  exists (l : list message) content,
    ss_messages (session m') = Some (l ++ [reply_record content code])%list.
Proof.
  unfold render. rewrite bind_eq. unfold lift.
  destruct (py_truth fig) as [[|] | e |]; [| | discriminate | discriminate].
  - destruct fig; try discriminate.
    unfold append_message, get_messages, set_messages, emit, bind, ret; cbn.
    destruct (ss_messages (session m)) as [l|]; [| discriminate].
    intros [= <-]. cbn. eauto.
  - destruct (is_not_None result);
      unfold append_message, get_messages, set_messages, emit, bind, ret; cbn;
      (destruct (ss_messages (session m)) as [l|]; [| discriminate]);
      intros [= <-]; cbn; eauto.
Qed.

End Executor.

Section Turn.

Context (W : world).

Lemma chat_turn_eq (prompt : string) (m : machine) (l : list message) (d : DataFrame) :
  ss_messages (session m) = Some l -> ss_df (session m) = Some (Some d) ->
  chat_turn W prompt m =
  match get_ai_response W d prompt (asked m l prompt) with
  | (m', Returns t) =>
      match unpack3 t m' with
      | (m'', Returns frc) => render W frc.1.1 frc.1.2 frc.2 m''
      | (m'', Raises e) => (m'', Raises e)
      | (m'', Diverges) => (m'', Diverges)
      end
  | (m', Raises e) => (m', Raises e)
  | (m', Diverges) => (m', Diverges)
  end.
Proof.
  intros Hl Hd. unfold chat_turn, append_message, get_messages, set_messages, get_df, emit.
  unfold bind at 1 2 3 4 5 6 7 8. cbn. rewrite Hl. cbn. rewrite Hd.
  unfold asked, recorded. rewrite <- !app_assoc, Hd. reflexivity.
Qed.

Lemma get_ai_response_model_passed (d : DataFrame) (user_query : string) (m : machine)
    (e : pyexn) :
  generate_content W (build_prompt (to_string W (head d)) user_query) = Raises e ->
  is_Exception (exn_cls e) = false ->
  get_ai_response W d user_query m = (m, Raises e).
Proof.
  intros H He. unfold get_ai_response. apply try_except_passed; [| exact He].
  apply bind_lift_raises, H.
Qed.

Lemma get_ai_response_model_hangs (d : DataFrame) (user_query : string) (m : machine) :
  generate_content W (build_prompt (to_string W (head d)) user_query) = Diverges ->
  get_ai_response W d user_query m = (m, Diverges).
Proof.
  intros H. unfold get_ai_response, try_except_Exception. rewrite bind_eq. unfold lift.
  rewrite H. reflexivity.
Qed.

Lemma chat_turn_needs_session (prompt : string) (m m' : machine) :
  chat_turn W prompt m = (m', Returns tt) ->
  exists l d, ss_messages (session m) = Some l /\ ss_df (session m) = Some (Some d).
Proof.
  unfold chat_turn, append_message, get_messages, set_messages, get_df, emit.
  unfold bind at 1 2 3 4 5 6 7 8. cbn.
  destruct (ss_messages (session m)) as [l|]; [| discriminate]. cbn.
  destruct (ss_df (session m)) as [[d|]|]; [eauto | discriminate | discriminate].
Qed.

(** A turn that completes got a reply from the model, and the code in
    the record it stored is the cleaned reply, the text handed to
    [execute_code]. *)
Lemma chat_turn_records_code (prompt : string) (m m' : machine) :
  chat_turn W prompt m = (m', Returns tt) ->
  exists d text (l : list message) content,
    ss_df (session m) = Some (Some d)
    /\ generate_content W (build_prompt (to_string W (head d)) prompt) = Returns text
    /\ ss_messages (session m')
       = Some (l ++ [reply_record content (PyStr (code_to_execute text))])%list.
Proof.
  intros H. destruct (chat_turn_needs_session prompt m m' H) as (l0 & d & Hl & Hd).
  rewrite (chat_turn_eq prompt m l0 d Hl Hd) in H.
  destruct (generate_content W (build_prompt (to_string W (head d)) prompt))
    as [text | e |] eqn:G.
  - rewrite (get_ai_response_replied W d prompt text _ G) in H.
    destruct (execute_code_cases W (code_to_execute text) d (asked m l0 prompt))
      as [(m1 & fig & result & E) | [(m1 & e & E & He) | (m1 & E)]];
      rewrite E in H; [| discriminate | discriminate].
    cbn in H. apply render_records_code in H. destruct H as (l & content & H).
    exists d, text, l, content. auto.
  - destruct (is_Exception (exn_cls e)) eqn:He.
    + rewrite (get_ai_response_model_failed W d prompt _ e G He) in H. discriminate.
    + rewrite (get_ai_response_model_passed d prompt _ e G He) in H. discriminate.
  - rewrite (get_ai_response_model_hangs d prompt _ G) in H. discriminate.
Qed.

End Turn.

Lemma show_messages_eq (l : list message) (m : machine) :
  show_messages l m
  = ({| session := session m; screen := screen m ++ flat_map shown l |}, Returns tt).
Proof.
  revert m. induction l as [|x l IH]; intros m.
  - cbn. rewrite app_nil_r. destruct m; reflexivity.
  - cbn [show_messages flat_map]. unfold shown at 1.
    destruct (msg_code x) as [c|]; unfold emit, ret, bind; cbn;
      rewrite IH; cbn; rewrite <- !app_assoc; reflexivity.
Qed.

Lemma expander_shows_stored_code (l : list message) (content : string) (code : pyval)
    (m : machine) :
  last (screen (show_messages (l ++ [reply_record content code]) m).1) = Some (StCode code).
Proof.
  rewrite show_messages_eq. cbn [fst screen].
  rewrite flat_map_app. cbn. rewrite !app_assoc.
  change [StChatMessage assistant; StMarkdown content;
          StExpander "View Generated Code"; StCode code]
    with ([StChatMessage assistant; StMarkdown content;
           StExpander "View Generated Code"] ++ [StCode code]).
  rewrite app_assoc. apply last_snoc.
Qed.

(** ** The turn outcome *)

(** A chart slot that is bound but fails the truth test (a number zero,
    an empty string) is passed over like None. *)
Lemma falsy_chart_slot_falls_through (W : world) (fig result code : pyval) (m : machine)
    (l : list message) :
  ss_messages (session m) = Some l ->
  py_truth fig = Returns false -> result <> PyNone ->
  render W fig result code m
  = (recorded m (l ++ [reply_record result_summary code])
       [StWrite (PyStr "Here is the result of your analysis:"); StWrite result],
     Returns tt).
Proof.
  intros Hl Ht Hr. apply render_result; [exact Ht | | exact Hl].
  destruct result; [contradiction | reflexivity ..].
Qed.




(** A value in the chart slot that passes the truth test and is no chart
    is handed to plotly all the same, which refuses it: the turn ends
    there, with nothing shown and no record stored. *)
Lemma truthy_non_chart_is_refused (W : world) (fig result code : pyval) (m : machine) :
  py_truth fig = Returns true -> (forall spec, fig <> PyFigure spec) ->
  exists e, render W fig result code m = (m, Raises e)
            /\ exn_cls e = OtherException "PlotlyError".
Proof.
  intros Ht Hf. unfold render. rewrite (bind_lift_returns _ true) by exact Ht.
  destruct fig; try discriminate Ht; try (eexists; split; reflexivity).
  destruct (Hf spec eq_refl).
Qed.

(** Stubbed replies, one per branch, through the whole turn. *)
Example stub_chart_turn :
  let W := Demo.world (Some "k") (Returns "fig = px.bar(df, x='Region', y='Sales')") None in
  let m := {| session := {| ss_messages := Some []; ss_df := Some (Some Demo.sales) |};
              screen := [] |} in
  last (screen (chat_turn W "Plot sales by region" m).1)
  = Some (StPlotlyChart (PyFigure "bar Region/Sales")).
Proof. reflexivity. Qed.

Example stub_result_turn :
  let W := Demo.world (Some "k") (Returns "result = 42") None in
  let m := {| session := {| ss_messages := Some []; ss_df := Some (Some Demo.sales) |};
              screen := [] |} in
  last (screen (chat_turn W "Total sales?" m).1) = Some (StWrite (PyInt 42)).
Proof. reflexivity. Qed.

(** An execution error comes back in the result slot, which is then not
    None: the turn shows it on the result branch. *)
Example stub_error_turn :
  let W := Demo.world (Some "k") (Returns "1/0") None in
  let m := {| session := {| ss_messages := Some []; ss_df := Some (Some Demo.sales) |};
              screen := [] |} in
  screen (chat_turn W "Divide" m).1
  = [StChatMessage user; StMarkdown "Divide"; StChatMessage assistant;
     StSpinner "DataPilot is thinking...";
     StWrite (PyStr "Here is the result of your analysis:");
     StWrite (PyStr "Error executing code: division by zero")].
Proof. reflexivity. Qed.

(** ** Failed turns *)

Lemma execute_code_slots_unset (W : world) (code : string) (df : DataFrame) (m m' : machine)
    (vars : gmap string pyval) :
  exec W code (local_vars df) m = (m', Returns vars) ->
  vars !! "fig" = None -> vars !! "result" = None ->
  execute_code W code df m = (m', Returns [PyNone; PyNone; PyStr code]).
Proof.
  intros H Hf Hr. rewrite (execute_code_returned W code df m m' vars H).
  unfold scope_get. rewrite Hf, Hr. reflexivity.
Qed.

(** C3, at the reply [x = 1]: the code runs without raising and binds
    neither [fig] nor [result].  The triple that comes back has None in
    the result slot, not an error description; the turn does take the
    failure branch, whose message then ends in the text "None". *)
Theorem unset_slots_leave_result_None :
  let W := Demo.world (Some "k") (Returns "x = 1") None in
  let m := {| session := {| ss_messages := Some []; ss_df := Some (Some Demo.sales) |};
              screen := [] |} in
  execute_code W "x = 1" Demo.sales m = (m, Returns [PyNone; PyNone; PyStr "x = 1"])
  /\ get_ai_response W Demo.sales "Count the rows" m
     = (m, Returns [PyNone; PyNone; PyStr "x = 1"])
  /\ chat_turn W "Count the rows" m
     = ({| session :=
             {| ss_messages :=
                  Some [{| msg_role := user; msg_content := "Count the rows";
                           msg_code := None |};
                        reply_record failure_summary (PyStr "x = 1")];
                ss_df := Some (Some Demo.sales) |};
           screen :=
             [StChatMessage user; StMarkdown "Count the rows"; StChatMessage assistant;
              StSpinner "DataPilot is thinking...";
              StError ("Sorry, I ran into an issue. " +:+ PyStr.newline +:+ PyStr.newline
                       +:+ "None")] |},
        Returns tt).
Proof. repeat split. Qed.

(** C1, at a model call that fails with a quota error: the Bridge
    catches the error and returns a pair, with the diagnostic in the
    second place and no code slot; the three-way unpacking of the chat
    handler then raises ValueError, and the turn ends without an
    assistant record. *)
Theorem model_failure_returns_pair :
  let W := Demo.world (Some "k") (Raises Demo.quota) None in
  let m := {| session := {| ss_messages := Some []; ss_df := Some (Some Demo.sales) |};
              screen := [] |} in
  get_ai_response W Demo.sales "Total sales?" m
  = (m, Returns [PyNone; PyStr "An error occurred with the AI model: 429 quota exceeded"])
  /\ chat_turn W "Total sales?" m
     = ({| session :=
             {| ss_messages :=
                  Some [{| msg_role := user; msg_content := "Total sales?";
                           msg_code := None |}];
                ss_df := Some (Some Demo.sales) |};
           screen :=
             [StChatMessage user; StMarkdown "Total sales?"; StChatMessage assistant;
              StSpinner "DataPilot is thinking..."] |},
        Raises {| exn_cls := ValueError;
                  exn_text := "not enough values to unpack (expected 3, got 2)" |}).
Proof. repeat split. Qed.

(** The same for every world, table and question. *)
Lemma model_failure_breaks_turn (W : world) (prompt : string) (m : machine)
    (l : list message) (d : DataFrame) (e : pyexn) :
  ss_messages (session m) = Some l -> ss_df (session m) = Some (Some d) ->
  generate_content W (build_prompt (to_string W (head d)) prompt) = Raises e ->
  is_Exception (exn_cls e) = true ->
  chat_turn W prompt m
  = (asked m l prompt,
     Raises {| exn_cls := ValueError;
               exn_text := "not enough values to unpack (expected 3, got 2)" |}).
Proof.
  intros Hl Hd G He. rewrite (chat_turn_eq W prompt m l d Hl Hd).
  rewrite (get_ai_response_model_failed W d prompt _ e G He). reflexivity.
Qed.

(** ** The code that comes back is the code that ran *)

(** C4, as the spec has it, fails: [raise SystemExit] is a code string
    on which [execute_code] hands nothing back; the error, which is not
    an [Exception], goes through its handler and through the Bridge's. *)
Lemma system_exit_escapes_execute_code :
  let W := Demo.world (Some "k") (Returns "raise SystemExit") None in
  let m := {| session := {| ss_messages := Some []; ss_df := Some (Some Demo.sales) |};
              screen := [] |} in
  execute_code W "raise SystemExit" Demo.sales m = (m, Raises Demo.system_exit)
  /\ get_ai_response W Demo.sales "Quit" m = (m, Raises Demo.system_exit)
  /\ ~ (exists m' t, execute_code W "raise SystemExit" Demo.sales m = (m', Returns t)).
Proof.
  intros W m. split; [reflexivity |]. split; [reflexivity |].
  intros (m' & t & H). discriminate H.
Qed.

(** C4 (amended): for every code string and table, when the code runs to
    its end [execute_code] returns the two slots and the code, and when
    it raises an error of class Exception [execute_code] returns None,
    the error text and the code: either way a triple whose third
    component is the string that was executed.  An error outside
    Exception goes on to the caller, and code that never ends keeps
    [execute_code] from returning.  Whenever a turn completes, the code
    stored in its transcript record is the text that was executed, and
    it is what the expander of that record shows. *)
Theorem execute_code_returns_its_code (W : world) (code : string) (df : DataFrame)
    (m : machine) :
  (forall m' vars, exec W code (local_vars df) m = (m', Returns vars) ->
     execute_code W code df m
     = (m', Returns [scope_get "fig" vars; scope_get "result" vars; PyStr code]))
  /\ (forall m' e, exec W code (local_vars df) m = (m', Raises e) ->
      is_Exception (exn_cls e) = true ->
      execute_code W code df m
      = (m', Returns [PyNone; PyStr ("Error executing code: " +:+ exn_text e); PyStr code]))
  /\ (forall m' e, exec W code (local_vars df) m = (m', Raises e) ->
      is_Exception (exn_cls e) = false ->
      execute_code W code df m = (m', Raises e))
  /\ (forall m', exec W code (local_vars df) m = (m', Diverges) ->
      execute_code W code df m = (m', Diverges))
  /\ (forall m' t, execute_code W code df m = (m', Returns t) ->
      length t = 3 /\ t !! 2 = Some (PyStr code))
  /\ (forall prompt m', chat_turn W prompt m = (m', Returns tt) ->
      exists d text (l : list message) content,
        ss_df (session m) = Some (Some d)
        /\ generate_content W (build_prompt (to_string W (head d)) prompt) = Returns text
        /\ (forall m1, get_ai_response W d prompt m1
                       = execute_code W (code_to_execute text) d m1)
        /\ ss_messages (session m')
           = Some (l ++ [reply_record content (PyStr (code_to_execute text))])
        /\ (forall m2,
              last (screen (show_messages
                              (l ++ [reply_record content (PyStr (code_to_execute text))])
                              m2).1)
              = Some (StCode (PyStr (code_to_execute text))))).
Proof.
  split; [intros; apply execute_code_returned; assumption |].
  split; [intros; apply execute_code_caught; assumption |].
  split; [intros; apply execute_code_passed; assumption |].
  split; [intros; apply execute_code_hangs; assumption |].
  split.
  - intros m' t H.
    destruct (execute_code_cases W code df m)
      as [(m1 & fig & result & E) | [(m1 & e & E & _) | (m1 & E)]];
      rewrite E in H; [| discriminate | discriminate].
    injection H as _ <-. split; reflexivity.
  - intros prompt m' H.
    destruct (chat_turn_records_code W prompt m m' H) as (d & text & l & content & Hd & G & Hm).
    exists d, text, l, content. repeat split; try assumption.
    + intros m1. apply get_ai_response_replied, G.
    + intros m2. apply expander_shows_stored_code.
Qed.

Lemma execute_code_returns_its_code_witness :
  let W := Demo.world (Some "k") (Returns "result = 42") None in
  let m := {| session := {| ss_messages := Some []; ss_df := Some (Some Demo.sales) |};
              screen := [] |} in
  execute_code W "result = 42" Demo.sales m
  = (m, Returns [PyNone; PyInt 42; PyStr "result = 42"])
  /\ execute_code W "1/0" Demo.sales m
     = (m, Returns [PyNone; PyStr "Error executing code: division by zero"; PyStr "1/0"])
  /\ execute_code W "raise SystemExit" Demo.sales m = (m, Raises Demo.system_exit)
  /\ (length [PyNone; PyInt 42; PyStr "result = 42"] = 3
      /\ [PyNone; PyInt 42; PyStr "result = 42"] !! 2 = Some (PyStr "result = 42"))
  /\ (exists d text (l : list message) content,
        Some (Some Demo.sales) = Some (Some d)
        /\ Returns "result = 42" = Returns text
        /\ (forall m1, get_ai_response W d "Total sales?" m1
                       = execute_code W (code_to_execute text) d m1)
        /\ ss_messages (session (chat_turn W "Total sales?" m).1)
           = Some (l ++ [reply_record content (PyStr (code_to_execute text))])
        /\ (forall m2,
              last (screen (show_messages
                              (l ++ [reply_record content (PyStr (code_to_execute text))])
                              m2).1)
              = Some (StCode (PyStr (code_to_execute text))))).
Proof.
  intros W m.
  pose proof (execute_code_returns_its_code W "result = 42" Demo.sales m)
    as (R & _ & _ & _ & T & C).
  pose proof (execute_code_returns_its_code W "1/0" Demo.sales m) as (_ & E & _).
  pose proof (execute_code_returns_its_code W "raise SystemExit" Demo.sales m)
    as (_ & _ & P & _).
  split; [exact (R m _ eq_refl) |].
  split; [exact (E m Demo.zero_division eq_refl eq_refl) |].
  split; [exact (P m Demo.system_exit eq_refl eq_refl) |].
  split; [exact (T m _ (R m _ eq_refl)) |].
  exact (C "Total sales?" _ eq_refl).
Defined.

(** ** Cleaning the reply *)

Module Unfence.

Import PyStr.

(** One step of the scan for the three-backtick marker. *)
Lemma replace_fence_cons (c : ascii) (r : string) :
  replace fence EmptyString (String c r)
  = if String.prefix fence (String c r)
    then replace_from fence EmptyString 2 r
    else String c (replace fence EmptyString r).
Proof. reflexivity. Qed.

Lemma replace_fence_skip (a b : ascii) (s : string) :
  replace_from fence EmptyString 2 (String a (String b s)) = replace fence EmptyString s.
Proof. reflexivity. Qed.

Lemma contains_cons (sub : string) (c : ascii) (r : string) :
  contains sub (String c r) = String.prefix sub (String c r) || contains sub r.
Proof. reflexivity. Qed.

Lemma prefix_cons (a b : ascii) (s1 s2 : string) :
  String.prefix (String a s1) (String b s2)
  = if ascii_dec a b then String.prefix s1 s2 else false.
Proof. reflexivity. Qed.

Lemma prefix_fence_other (c : ascii) (r : string) :
  c <> "`"%char -> String.prefix fence (String c r) = false.
Proof.
  intros Hc. unfold fence. rewrite prefix_cons.
  destruct (ascii_dec "`" c) as [E|_]; [congruence | reflexivity].
Qed.

Lemma prefix_fence_2 (c : ascii) (r : string) :
  c <> "`"%char -> String.prefix fence (String "`" (String c r)) = false.
Proof.
  intros Hc. unfold fence. rewrite !prefix_cons.
  destruct (ascii_dec "`" "`"); [| reflexivity].
  destruct (ascii_dec "`" c) as [E|_]; [congruence | reflexivity].
Qed.

Lemma prefix_fence_3 (c : ascii) (r : string) :
  c <> "`"%char -> String.prefix fence (String "`" (String "`" (String c r))) = false.
Proof.
  intros Hc. unfold fence. rewrite !prefix_cons.
  destruct (ascii_dec "`" "`"); [| reflexivity].
  destruct (ascii_dec "`" c) as [E|_]; [congruence | reflexivity].
Qed.

Lemma prefix_fence_fence (r : string) :
  String.prefix fence (String "`" (String "`" (String "`" r))) = true.
Proof.
  unfold fence. rewrite !prefix_cons.
  destruct (ascii_dec "`" "`"); [| congruence]. destruct r; reflexivity.
Qed.

(** What is left after [replace('```', '')] has no three backticks in a
    row. *)
Lemma replace_fence_bounded (n : nat) (s : string) :
  String.length s <= n -> contains fence (replace fence EmptyString s) = false.
Proof.
  revert s. induction n as [n IH] using lt_wf_ind. intros s Hn.
  destruct s as [|c1 r1]; [reflexivity |].
  destruct (ascii_dec c1 "`") as [-> | H1].
  2:{ rewrite replace_fence_cons, (prefix_fence_other c1 r1 H1), contains_cons,
        (prefix_fence_other c1 _ H1).
      apply (IH (String.length r1)); cbn in Hn |- *; lia. }
  destruct r1 as [|c2 r2]; [reflexivity |].
  destruct (ascii_dec c2 "`") as [-> | H2].
  2:{ rewrite replace_fence_cons, (prefix_fence_2 c2 r2 H2).
      rewrite replace_fence_cons, (prefix_fence_other c2 r2 H2).
      rewrite contains_cons, (prefix_fence_2 c2 _ H2).
      rewrite contains_cons, (prefix_fence_other c2 _ H2).
      apply (IH (String.length r2)); cbn in Hn |- *; lia. }
  destruct r2 as [|c3 r3]; [reflexivity |].
  destruct (ascii_dec c3 "`") as [-> | H3].
  - rewrite replace_fence_cons.
    rewrite prefix_fence_fence, replace_fence_skip.
    apply (IH (String.length r3)); cbn in Hn |- *; lia.
  - rewrite replace_fence_cons, (prefix_fence_3 c3 r3 H3).
    rewrite replace_fence_cons, (prefix_fence_2 c3 r3 H3).
    rewrite replace_fence_cons, (prefix_fence_other c3 r3 H3).
    rewrite contains_cons, (prefix_fence_3 c3 _ H3).
    rewrite contains_cons, (prefix_fence_2 c3 _ H3).
    rewrite contains_cons, (prefix_fence_other c3 _ H3).
    apply (IH (String.length r3)); cbn in Hn |- *; lia.
Qed.

Lemma replace_fence_clean (s : string) :
  contains fence (replace fence EmptyString s) = false.
Proof. apply (replace_fence_bounded (String.length s)). lia. Qed.

Lemma orb_false_both (a b : bool) : a || b = false -> a = false /\ b = false.
Proof. destruct a, b; intros H; try discriminate H; split; reflexivity. Qed.

(** Where [old] does not occur, [replace] changes nothing. *)
Lemma replace_absent (a : ascii) (old' new s : string) :
  contains (String a old') s = false -> replace (String a old') new s = s.
Proof.
  unfold replace. induction s as [|c r IH]; [reflexivity |].
  rewrite contains_cons. intros H. apply orb_false_both in H as [Hp Hc].
  cbn [replace_from]. rewrite Hp, (IH Hc). reflexivity.
Qed.

Lemma prefix_fence_python (s : string) :
  String.prefix fence s = false -> String.prefix fence_python s = false.
Proof.
  unfold fence, fence_python.
  destruct s as [|c1 [|c2 [|c3 r]]]; try reflexivity; rewrite !prefix_cons;
    repeat (destruct (ascii_dec _ _); try reflexivity).
  destruct r; discriminate.
Qed.

Lemma contains_fence_python (s : string) :
  contains fence s = false -> contains fence_python s = false.
Proof.
  induction s as [|c r IH]; [reflexivity |].
  rewrite !contains_cons. intros H. apply orb_false_both in H as [Hp Hc].
  rewrite (prefix_fence_python _ Hp), (IH Hc). reflexivity.
Qed.

End Unfence.

(** C9, as the spec has it, fails: a reply with no fence marker in it,
    but with a blank in front, is not executed as it is; the blank,
    which is no fence marker, is gone too. *)
Lemma leading_blank_is_removed :
  PyStr.contains PyStr.fence " x = 1" = false
  /\ fence_markers_removed " x = 1" = " x = 1"
  /\ code_to_execute " x = 1" = "x = 1"
  /\ code_to_execute " x = 1" <> fence_markers_removed " x = 1".
Proof. repeat split. discriminate. Qed.

(** C9 (amended): for every raw reply, the Bridge strips the white space
    at both ends of the reply, then takes out every [```python] and then
    every [```] that is left, and hands the outcome to the Executor as
    the code.  The executed string has no [```] in it, and a reply with
    no [```] and no white space at its ends is executed as it is. *)
Theorem reply_is_stripped_then_unfenced (W : world) (df : DataFrame) (user_query : string)
    (m : machine) (text : string) :
  code_to_execute text = fence_markers_removed (PyStr.strip text)
  /\ PyStr.contains PyStr.fence (code_to_execute text) = false
  /\ (PyStr.contains PyStr.fence text = false -> PyStr.strip text = text ->
      code_to_execute text = text)
  /\ (generate_content W (build_prompt (to_string W (head df)) user_query) = Returns text ->
      get_ai_response W df user_query m = execute_code W (code_to_execute text) df m).
Proof.
  split; [reflexivity |].
  split; [apply Unfence.replace_fence_clean |].
  split.
  - intros Hc Hs. unfold code_to_execute. rewrite Hs.
    unfold PyStr.fence_python at 1.
    rewrite (Unfence.replace_absent _ _ _ _ (Unfence.contains_fence_python _ Hc)).
    unfold PyStr.fence at 1. apply Unfence.replace_absent, Hc.
  - apply get_ai_response_replied.
Qed.

Lemma reply_is_stripped_then_unfenced_witness :
  let W := Demo.world (Some "k") (Returns "result = 42") None in
  let m := {| session := {| ss_messages := Some []; ss_df := Some (Some Demo.sales) |};
              screen := [] |} in
  code_to_execute "result = 42" = "result = 42"
  /\ get_ai_response W Demo.sales "Total sales?" m
     = execute_code W (code_to_execute "result = 42") Demo.sales m.
Proof.
  intros W m.
  pose proof (reply_is_stripped_then_unfenced W Demo.sales "Total sales?" m "result = 42")
    as (_ & _ & I & B).
  split; [exact (I eq_refl eq_refl) | exact (B eq_refl)].
Defined.

(** A reply in a fence, as the model often sends it. *)
Example fenced_reply :
  code_to_execute
    ("```python" +:+ PyStr.newline +:+ "result = 42" +:+ PyStr.newline +:+ "```"
     +:+ PyStr.newline)
  = PyStr.newline +:+ "result = 42" +:+ PyStr.newline.
Proof. reflexivity. Qed.

(** The text after the backticks goes only when it is [python]. *)
Example fenced_reply_other_tag :
  code_to_execute ("```py" +:+ PyStr.newline +:+ "result = 42" +:+ PyStr.newline +:+ "```")
  = "py" +:+ PyStr.newline +:+ "result = 42" +:+ PyStr.newline.
Proof. reflexivity. Qed.

(** * Further properties of the script *)

(** ** Session initialisation and reruns *)

(** X1: the initialisation of lines 99-102 fills in the keys that are
    missing and keeps the ones that are there; it shows nothing, doing
    it twice is doing it once, and after it both keys can be read. *)
Theorem init_session_fills_missing_keys (m : machine) :
  (init_session m).2 = Returns tt
  /\ screen (init_session m).1 = screen m
  /\ (forall l, ss_messages (session m) = Some l ->
      ss_messages (session (init_session m).1) = Some l)
  /\ (forall d, ss_df (session m) = Some d ->
      ss_df (session (init_session m).1) = Some d)
  /\ (ss_messages (session m) = None ->
      ss_messages (session (init_session m).1) = Some [])
  /\ (ss_df (session m) = None -> ss_df (session (init_session m).1) = Some None)
  /\ init_session (init_session m).1 = init_session m
  /\ (exists l d, get_messages (init_session m).1 = ((init_session m).1, Returns l)
                  /\ get_df (init_session m).1 = ((init_session m).1, Returns d)).
Proof.
  unfold init_session, get_messages, get_df. cbn.
  repeat split.
  - intros l ->. reflexivity.
  - intros d ->. reflexivity.
  - intros ->. reflexivity.
  - intros ->. reflexivity.
  - eauto.
Qed.

Lemma init_session_fills_missing_keys_witness :
  let old := [user_record "hi"] in
  let m := {| session := {| ss_messages := Some old; ss_df := None |}; screen := [] |} in
  let fresh := {| session := {| ss_messages := None; ss_df := Some (Some Demo.sales) |};
                  screen := [] |} in
  (ss_messages (session (init_session m).1) = Some old
   /\ ss_df (session (init_session m).1) = Some None)
  /\ (ss_df (session (init_session fresh).1) = Some (Some Demo.sales)
      /\ ss_messages (session (init_session fresh).1) = Some []).
Proof.
  intros old m fresh.
  pose proof (init_session_fills_missing_keys m) as (_ & _ & K1 & _ & _ & F1 & _).
  pose proof (init_session_fills_missing_keys fresh) as (_ & _ & _ & K2 & F2 & _).
  exact (conj (conj (K1 old eq_refl) (F1 eq_refl))
              (conj (K2 (Some Demo.sales) eq_refl) (F2 eq_refl))).
Defined.

Section Reruns.

Context (W : world).

(** The script up to the point where the session's table is read, when
    the user touched neither the uploader nor the button. *)
Lemma script_idle_sidebar (i : inputs) (m : machine) (k : string) :
  credential W = Some k -> uploaded i = None -> load_sample_clicked i = false ->
  script W i m =
  match ss_df (session (init_session m).1) with
  | Some (Some d) =>
      match show_messages (default [] (ss_messages (session m)))
              {| session := session (init_session m).1;
                 screen := (screen m ++ page_top) ++ page_table d |} with
      | (m', Returns _) =>
          match chat_input i with
          | Some prompt =>
              if negb (String.eqb prompt EmptyString)
              then chat_turn W prompt m' else (m', Returns tt)
          | None => (m', Returns tt)
          end
      | (m', Raises e) => (m', Raises e)
      | (m', Diverges) => (m', Diverges)
      end
  | _ =>
      ({| session := session (init_session m).1;
          screen := (screen m ++ page_top)
                    ++ [StInfo "Please upload a CSV or Excel file, or load the sample data to get started."] |},
       Returns tt)
  end.
Proof.
  intros Hk Hu Hc. unfold script.
  rewrite bind_eq, (configure_with_credential W m k Hk).
  unfold sidebar, upload_step, sample_step. rewrite Hu, Hc.
  unfold emit, init_session, get_df, get_messages, page_top, page_table, bind, ret.
  cbn -[chat_turn show_messages].
  rewrite <- !app_assoc. cbn -[chat_turn show_messages].
  destruct (ss_df (session m)) as [[d|]|]; cbn -[chat_turn show_messages];
    rewrite <- ?app_assoc; try reflexivity.
  cbn -[chat_turn show_messages].
  destruct (show_messages _ _) as [m' [[] | e |]]; try reflexivity.
  destruct (chat_input i) as [prompt|]; [| reflexivity].
  destruct (negb _); reflexivity.
Qed.

(** X2: a run in which the user did nothing (no file in the uploader,
    button not pressed, no question or an empty one), on a session with
    a table, leaves the session as it is and shows the page again: title
    and sidebar, the preview of the first rows, and the transcript in
    its order. *)
Theorem idle_run_keeps_session (i : inputs) (m : machine) (k : string)
    (l : list message) (d : DataFrame) :
  credential W = Some k -> uploaded i = None -> load_sample_clicked i = false ->
  chat_input i = None \/ chat_input i = Some EmptyString ->
  ss_messages (session m) = Some l -> ss_df (session m) = Some (Some d) ->
  script W i m
  = ({| session := session m;
        screen := ((screen m ++ page_top) ++ page_table d) ++ flat_map shown l |},
     Returns tt).
Proof.
  intros Hk Hu Hc Hq Hl Hd. rewrite (script_idle_sidebar i m k Hk Hu Hc).
  unfold init_session. cbn -[chat_turn show_messages]. rewrite Hl, Hd.
  cbn -[chat_turn show_messages]. rewrite show_messages_eq. cbn [session screen].
  assert (Hs : {| ss_messages := Some l; ss_df := Some (Some d) |} = session m).
  { destruct (session m) as [ms ds]. cbn in Hl, Hd. subst. reflexivity. }
  rewrite Hs. destruct Hq as [-> | ->]; reflexivity.
Qed.

(** X3: without a table there is no chat.  When the session has no
    table and the user loads none, the run ends with the invitation to
    upload; a question typed in is dropped, nothing is added to the
    transcript, and neither the model nor [exec] comes into play. *)
Theorem no_table_no_chat (i : inputs) (m : machine) (k : string) :
  credential W = Some k -> uploaded i = None -> load_sample_clicked i = false ->
  ss_df (session m) = None \/ ss_df (session m) = Some None ->
  script W i m
  = ({| session := {| ss_messages := Some (default [] (ss_messages (session m)));
                      ss_df := Some None |};
        screen := (screen m ++ page_top)
                  ++ [StInfo "Please upload a CSV or Excel file, or load the sample data to get started."] |},
     Returns tt).
Proof.
  intros Hk Hu Hc Hd. rewrite (script_idle_sidebar i m k Hk Hu Hc).
  unfold init_session. cbn -[chat_turn show_messages].
  destruct Hd as [-> | ->]; reflexivity.
Qed.

End Reruns.

Lemma idle_run_keeps_session_witness :
  let W0 := Demo.world (Some "k") (Returns "result = 42") None in
  let l := [user_record "Total?"; reply_record result_summary (PyStr "result = 42")] in
  let m := {| session := {| ss_messages := Some l; ss_df := Some (Some Demo.sales) |};
              screen := [] |} in
  let i := {| uploaded := None; load_sample_clicked := false;
              chat_input := Some EmptyString |} in
  script W0 i m
  = ({| session := session m;
        screen := (page_top ++ page_table Demo.sales) ++ flat_map shown l |}, Returns tt).
Proof.
  intros W0 l m i.
  exact (idle_run_keeps_session W0 i m "k" l Demo.sales eq_refl eq_refl eq_refl
           (or_intror eq_refl) eq_refl eq_refl).
Defined.


Lemma no_table_no_chat_witness :
  let W0 := Demo.world (Some "k") (Returns "result = 42") None in
  let m := {| session := {| ss_messages := None; ss_df := None |}; screen := [] |} in
  let i := {| uploaded := None; load_sample_clicked := false;
              chat_input := Some "Total sales?" |} in
  script W0 i m
  = ({| session := {| ss_messages := Some []; ss_df := Some None |};
        screen := page_top
                  ++ [StInfo "Please upload a CSV or Excel file, or load the sample data to get started."] |},
     Returns tt).
Proof.
  intros W0 m i.
  exact (no_table_no_chat W0 i m "k" eq_refl eq_refl eq_refl (or_introl eq_refl)).
Defined.

(** ** The sidebar and the chat in one run *)

Section OneRun.

Context (W : world).

(** X4: when a file is in the uploader and the button is pressed in the
    same run, the sample wins: whether the upload parsed or was caught
    failing, the table that stays is the sample and the transcript is
    empty. *)
Theorem sample_load_overrides_upload (i : inputs) (m : machine) (f : uploaded_file)
    (d : DataFrame) :
  uploaded i = Some f -> load_sample_clicked i = true -> read_sample W = Returns d ->
  (exists d0, read_upload W f = Returns d0)
  \/ (exists e, read_upload W f = Raises e /\ is_Exception (exn_cls e) = true) ->
  session (sidebar W i m).1 = {| ss_messages := Some []; ss_df := Some (Some d) |}
  /\ (sidebar W i m).2 = Returns tt.
Proof.
  intros Hf Hc Hs [[d0 Hr] | (e & Hr & He)]; rewrite sidebar_eq.
  - rewrite (upload_step_loaded W i _ f d0 Hf Hr), (sample_step_loaded W i _ d Hc Hs).
    split; reflexivity.
  - rewrite (upload_step_failed W i _ f e Hf Hr He), (sample_step_loaded W i _ d Hc Hs).
    split; reflexivity.
Qed.

(** X5: the uploader hands its file to every run.  With a file that
    parses still in it, a run that brings a question first loads the
    table again and empties the transcript, and only then takes the
    turn: the turn starts from an empty transcript, whatever the
    conversation was before. *)
Theorem question_with_file_restarts_chat (i : inputs) (m : machine) (k prompt : string)
    (f : uploaded_file) (d : DataFrame) :
  credential W = Some k -> uploaded i = Some f -> read_upload W f = Returns d ->
  load_sample_clicked i = false -> chat_input i = Some prompt -> prompt <> EmptyString ->
  script W i m
  = chat_turn W prompt
      {| session := {| ss_messages := Some []; ss_df := Some (Some d) |};
         screen := ((screen m ++ page_top) ++ [StSuccess "File uploaded successfully!"])
                   ++ page_table d |}.
Proof.
  intros Hk Hf Hr Hc Hq Hp. unfold script.
  rewrite bind_eq, (configure_with_credential W m k Hk).
  unfold sidebar, upload_step, sample_step, try_except_Exception. rewrite Hf, Hc, Hq.
  unfold emit, init_session, get_df, get_messages, set_df, set_messages, lift,
    page_top, page_table, bind, ret.
  cbn -[chat_turn]. rewrite Hr. cbn -[chat_turn].
  assert (Hn : negb (String.eqb prompt EmptyString) = true).
  { destruct (String.eqb_spec prompt EmptyString); [contradiction | reflexivity]. }
  rewrite Hn, <- !app_assoc. reflexivity.
Qed.

End OneRun.

Lemma sample_load_overrides_upload_witness :
  let W := Demo.world (Some "k") (Returns "result = 42") (Some "Region,Sales") in
  let m := {| session := {| ss_messages := Some [user_record "hi"]; ss_df := Some None |};
              screen := [] |} in
  let good := {| file_name := "other.csv"; file_data := "Name" |} in
  let bad := {| file_name := "book.xlsx"; file_data := "Name" |} in
  let i := {| uploaded := Some good; load_sample_clicked := true; chat_input := None |} in
  let j := {| uploaded := Some bad; load_sample_clicked := true; chat_input := None |} in
  let loaded := {| ss_messages := Some []; ss_df := Some (Some Demo.sales) |} in
  (session (sidebar W i m).1 = loaded /\ (sidebar W i m).2 = Returns tt)
  /\ (session (sidebar W j m).1 = loaded /\ (sidebar W j m).2 = Returns tt).
Proof.
  intros W m good bad i j loaded. split.
  - apply (sample_load_overrides_upload W i m good Demo.sales eq_refl eq_refl eq_refl).
    left. eexists. reflexivity.
  - apply (sample_load_overrides_upload W j m bad Demo.sales eq_refl eq_refl eq_refl).
    right. eexists. split; reflexivity.
Defined.

Lemma question_with_file_restarts_chat_witness :
  let W := Demo.world (Some "k") (Returns "result = 42") None in
  let old := [user_record "Plot it"; reply_record chart_summary (PyStr "fig = 1")] in
  let m := {| session := {| ss_messages := Some old; ss_df := Some (Some Demo.sales) |};
              screen := [] |} in
  let f := {| file_name := "sales.csv"; file_data := "Region,Sales" |} in
  let i := {| uploaded := Some f; load_sample_clicked := false;
              chat_input := Some "Total sales?" |} in
  script W i m
  = chat_turn W "Total sales?"
      {| session := {| ss_messages := Some []; ss_df := Some (Some Demo.sales) |};
         screen := (page_top ++ [StSuccess "File uploaded successfully!"])
                   ++ page_table Demo.sales |}.
Proof.
  intros W old m f i.
  apply (question_with_file_restarts_chat W i m "k" "Total sales?" f Demo.sales
           eq_refl eq_refl eq_refl eq_refl eq_refl).
  discriminate.
Defined.

(** After that run the transcript holds the one turn only. *)
Example question_with_file_drops_history :
  let W := Demo.world (Some "k") (Returns "result = 42") None in
  let old := [user_record "Plot it"; reply_record chart_summary (PyStr "fig = 1")] in
  let m := {| session := {| ss_messages := Some old; ss_df := Some (Some Demo.sales) |};
              screen := [] |} in
  let f := {| file_name := "sales.csv"; file_data := "Region,Sales" |} in
  let i := {| uploaded := Some f; load_sample_clicked := false;
              chat_input := Some "Total sales?" |} in
  ss_messages (session (script W i m).1)
  = Some [user_record "Total sales?"; reply_record result_summary (PyStr "result = 42")].
Proof. reflexivity. Qed.

(** ** The reader for an uploaded file *)

Module Suffix.

Lemma chars_app (a b : string) : chars (a +:+ b) = chars a ++ chars b.
Proof.
  unfold chars. induction a as [|c a IH]; [reflexivity |].
  change (String c a +:+ b) with (String c (a +:+ b)).
  cbn [list_ascii_of_string]. rewrite IH. reflexivity.
Qed.

Lemma chars_inj (a b : string) : chars a = chars b -> a = b.
Proof.
  intros H. rewrite <- (string_of_list_ascii_of_string a), <- (string_of_list_ascii_of_string b).
  unfold chars in H. rewrite H. reflexivity.
Qed.

Lemma chars_rev_app (s1 s2 : string) :
  chars (String.rev_app s1 s2) = List.rev (chars s1) ++ chars s2.
Proof.
  unfold chars. revert s2. induction s1 as [|c s1 IH]; intros s2; [reflexivity |].
  change (String.rev_app (String c s1) s2) with (String.rev_app s1 (String c s2)).
  rewrite IH. cbn [list_ascii_of_string List.rev]. rewrite <- app_assoc. reflexivity.
Qed.

Lemma chars_rev (s : string) : chars (String.rev s) = List.rev (chars s).
Proof. unfold String.rev. rewrite chars_rev_app. apply app_nil_r. Qed.

Lemma rev_rev (s : string) : String.rev (String.rev s) = s.
Proof. apply chars_inj. rewrite !chars_rev. apply rev_involutive. Qed.

Lemma rev_append (a b : string) :
  String.rev (a +:+ b) = String.rev b +:+ String.rev a.
Proof.
  apply chars_inj. rewrite chars_rev, !chars_app, !chars_rev. apply rev_app_distr.
Qed.

Lemma prefix_iff (p s : string) :
  String.prefix p s = true <-> exists x, s = p +:+ x.
Proof.
  revert s. induction p as [|a p IH]; intros s.
  - split; [intros _; exists s; reflexivity | intros _; destruct s; reflexivity].
  - destruct s as [|b s].
    + split; [discriminate | intros [x Hx]; discriminate Hx].
    + rewrite Unfence.prefix_cons. destruct (ascii_dec a b) as [<- | Hab].
      * rewrite IH. split; intros [x Hx]; exists x.
        -- change (String a p +:+ x) with (String a (p +:+ x)). rewrite Hx. reflexivity.
        -- change (String a p +:+ x) with (String a (p +:+ x)) in Hx.
           injection Hx as Hx. exact Hx.
      * split; [discriminate |].
        intros [x Hx]. change (String a p +:+ x) with (String a (p +:+ x)) in Hx.
        injection Hx as Hb _. congruence.
Qed.

(** [s.endswith(suffix)] holds exactly when [s] is some text followed by
    [suffix]. *)
Lemma endswith_iff (suffix s : string) :
  PyStr.endswith suffix s = true <-> exists base, s = base +:+ suffix.
Proof.
  unfold PyStr.endswith. rewrite prefix_iff. split.
  - intros [x Hx]. exists (String.rev x).
    rewrite <- (rev_rev s), Hx, rev_append, rev_rev. reflexivity.
  - intros [base ->]. exists (String.rev base). apply rev_append.
Qed.

End Suffix.

(** X6: the reader is chosen by the file name alone.  A name that ends
    in [.csv], in these very characters, sends the bytes to
    [pd.read_csv]; every other name sends them to [pd.read_excel]. *)
Theorem reader_follows_file_name (W : world) (f : uploaded_file) :
  ((exists base, file_name f = base +:+ ".csv") ->
     read_upload W f = read_csv W (file_data f))
  /\ ((forall base, file_name f <> base +:+ ".csv") ->
     read_upload W f = read_excel W (file_data f)).
Proof.
  unfold read_upload. split.
  - intros H. apply (Suffix.endswith_iff ".csv") in H. rewrite H. reflexivity.
  - intros H. destruct (PyStr.endswith ".csv" (file_name f)) eqn:E; [| reflexivity].
    apply Suffix.endswith_iff in E as [base E]. destruct (H base E).
Qed.

Lemma reader_follows_file_name_witness :
  let W := Demo.world (Some "k") (Returns "result = 42") None in
  let lower := {| file_name := "sales.csv"; file_data := "Region,Sales" |} in
  let upper := {| file_name := "SALES.CSV"; file_data := "Region,Sales" |} in
  read_upload W lower = read_csv W "Region,Sales"
  /\ read_upload W upper = read_excel W "Region,Sales".
Proof.
  intros W lower upper. split.
  - apply (reader_follows_file_name W lower). exists "sales". reflexivity.
  - apply (reader_follows_file_name W upper). intros base H.
    apply (f_equal String.rev) in H. rewrite Suffix.rev_append in H.
    cbn in H. discriminate H.
Defined.

(** ** What the Bridge hands back *)

Section Bridge.

Context (W : world).


Lemma render_completed (fig result code : pyval) (m m' : machine) :
  render W fig result code m = (m', Returns tt) ->
  exists (l : list message) content,
    ss_messages (session m) = Some l
    /\ session m' = {| ss_messages := Some (l ++ [reply_record content code]);
                       ss_df := ss_df (session m) |}
    /\ (content = chart_summary \/ content = result_summary \/ content = failure_summary).
Proof.
  unfold render. rewrite bind_eq. unfold lift.
  destruct (py_truth fig) as [[|] | e |]; [| | discriminate | discriminate].
  - destruct fig; try discriminate.
    unfold append_message, get_messages, set_messages, emit, bind, ret; cbn.
    destruct (ss_messages (session m)) as [l|]; [| discriminate].
    intros [= <-]. exists l, chart_summary. cbn. auto.
  - destruct (is_not_None result);
      unfold append_message, get_messages, set_messages, emit, bind, ret; cbn;
      (destruct (ss_messages (session m)) as [l|]; [| discriminate]);
      intros [= <-]; cbn.
    + exists l, result_summary. auto.
    + exists l, failure_summary. auto.
Qed.

(** X8: a turn outcome that is shown adds one record to the transcript
    and nothing else to the session: the record is the assistant's, its
    text is one of the three fixed summaries (never the raw error), and
    its code is the code of the triple. *)
Theorem render_appends_one_record (fig result code : pyval) (m m' : machine) :
  render W fig result code m = (m', Returns tt) ->
  exists (l : list message) content,
    ss_messages (session m) = Some l
    /\ session m' = {| ss_messages := Some (l ++ [reply_record content code]);
                       ss_df := ss_df (session m) |}
    /\ (content = chart_summary \/ content = result_summary \/ content = failure_summary).
Proof. apply render_completed. Qed.

(** X9: when the generated code raises an error of class Exception, the
    turn does not take the failure branch.  The error text comes back in
    the result slot, which is then not None, so it is written out as
    the result of the analysis and the turn is recorded with the summary
    of a completed calculation. *)
Theorem execution_error_shown_as_result (prompt text : string) (m m1 : machine)
    (l l1 : list message) (d : DataFrame) (e : pyexn) :
  ss_messages (session m) = Some l -> ss_df (session m) = Some (Some d) ->
  generate_content W (build_prompt (to_string W (head d)) prompt) = Returns text ->
  exec W (code_to_execute text) (local_vars d) (asked m l prompt) = (m1, Raises e) ->
  is_Exception (exn_cls e) = true ->
  ss_messages (session m1) = Some l1 ->
  chat_turn W prompt m
  = (recorded m1 (l1 ++ [reply_record result_summary (PyStr (code_to_execute text))])
       [StWrite (PyStr "Here is the result of your analysis:");
        StWrite (PyStr ("Error executing code: " +:+ exn_text e))],
     Returns tt).
Proof.
  intros Hl Hd G E He Hl1. rewrite (chat_turn_eq W prompt m l d Hl Hd).
  rewrite (get_ai_response_replied W d prompt text _ G).
  rewrite (execute_code_caught W _ d _ m1 e E He). cbn [unpack3 ret fst snd].
  apply render_result; [reflexivity | reflexivity | exact Hl1].
Qed.

End Bridge.


Lemma render_appends_one_record_witness :
  let W := Demo.world (Some "k") (Returns "x = 1") None in
  let old := [user_record "Count the rows"] in
  let m := {| session := {| ss_messages := Some old; ss_df := Some (Some Demo.sales) |};
              screen := [] |} in
  exists (l : list message) content,
    Some old = Some l
    /\ session (render W PyNone PyNone (PyStr "x = 1") m).1
       = {| ss_messages := Some (l ++ [reply_record content (PyStr "x = 1")]);
            ss_df := Some (Some Demo.sales) |}
    /\ (content = chart_summary \/ content = result_summary \/ content = failure_summary).
Proof.
  intros W old m.
  exact (render_appends_one_record W PyNone PyNone (PyStr "x = 1") m _ eq_refl).
Defined.

Lemma execution_error_shown_as_result_witness :
  let W := Demo.world (Some "k") (Returns "1/0") None in
  let m := {| session := {| ss_messages := Some []; ss_df := Some (Some Demo.sales) |};
              screen := [] |} in
  chat_turn W "Divide" m
  = (recorded (asked m [] "Divide")
       [user_record "Divide"; reply_record result_summary (PyStr "1/0")]
       [StWrite (PyStr "Here is the result of your analysis:");
        StWrite (PyStr "Error executing code: division by zero")],
     Returns tt).
Proof.
  intros W m.
  exact (execution_error_shown_as_result W "Divide" "1/0" m (asked m [] "Divide") []
           [user_record "Divide"] Demo.sales Demo.zero_division
           eq_refl eq_refl eq_refl eq_refl eq_refl eq_refl).
Defined.

(** ** The transcript across a turn *)

Section Transcript.

Context (W : world).

Lemma execute_code_machine (code : string) (df : DataFrame) (m : machine) :
  (execute_code W code df m).1 = (exec W code (local_vars df) m).1.
Proof.
  destruct (exec W code (local_vars df) m) as [m' [vars | e |]] eqn:H.
  - rewrite (execute_code_returned W code df m m' vars H). reflexivity.
  - destruct (is_Exception (exn_cls e)) eqn:He.
    + rewrite (execute_code_caught W code df m m' e H He). reflexivity.
    + rewrite (execute_code_passed W code df m m' e H He). reflexivity.
  - rewrite (execute_code_hangs W code df m m' H). reflexivity.
Qed.

Lemma get_ai_response_session (d : DataFrame) (prompt : string) (m : machine)
    (l : list message) :
  ss_df (session m) = Some (Some d) -> turn_keeps_session W prompt m l ->
  session (get_ai_response W d prompt (asked m l prompt)).1 = session (asked m l prompt).
Proof.
  intros Hd K.
  destruct (generate_content W (build_prompt (to_string W (head d)) prompt))
    as [text | e |] eqn:G.
  - rewrite (get_ai_response_replied W d prompt text _ G), execute_code_machine.
    apply (K d text Hd G).
  - destruct (is_Exception (exn_cls e)) eqn:He.
    + rewrite (get_ai_response_model_failed W d prompt _ e G He). reflexivity.
    + rewrite (get_ai_response_model_passed W d prompt _ e G He). reflexivity.
  - rewrite (get_ai_response_model_hangs W d prompt _ G). reflexivity.
Qed.

(** Code that never touches the session does not touch it in this turn. *)
Lemma exec_keeps_session_turn (prompt : string) (m : machine) (l : list message) :
  exec_keeps_session W -> turn_keeps_session W prompt m l.
Proof. intros K d text _ _. apply K. Qed.

Lemma render_keeps_prefix (fig result code : pyval) (m : machine) (l : list message) :
  ss_messages (session m) = Some l ->
  exists rest, ss_messages (session (render W fig result code m).1) = Some (l ++ rest)
               /\ ss_df (session (render W fig result code m).1) = ss_df (session m).
Proof.
  intros Hl. unfold render. rewrite bind_eq. unfold lift.
  destruct (py_truth fig) as [[|] | e |].
  - destruct fig;
      try (exists []; rewrite app_nil_r; split; [exact Hl | reflexivity]).
    unfold append_message, get_messages, set_messages, emit, bind, ret; cbn.
    rewrite Hl. cbn. eauto.
  - destruct (is_not_None result);
      unfold append_message, get_messages, set_messages, emit, bind, ret; cbn;
      rewrite Hl; cbn; eauto.
  - exists []. rewrite app_nil_r. auto.
  - exists []. rewrite app_nil_r. auto.
Qed.

Lemma chat_turn_without_table (prompt : string) (m : machine) (l : list message) :
  ss_messages (session m) = Some l ->
  ss_df (session m) = None \/ ss_df (session m) = Some None ->
  session (chat_turn W prompt m).1
  = {| ss_messages := Some (l ++ [user_record prompt]); ss_df := ss_df (session m) |}.
Proof.
  intros Hl Hd.
  unfold chat_turn, append_message, get_messages, set_messages, get_df, emit, raise.
  unfold bind at 1 2 3 4 5 6 7 8. cbn. rewrite Hl. cbn.
  destruct Hd as [Hd | Hd]; rewrite Hd; reflexivity.
Qed.

(** X10: a turn only ever adds to the transcript.  Provided the code
    executed in the turn leaves the session alone, then however the turn
    ends (completed, raised, or hung) the earlier records are still
    there in their order, the question comes right after them, and the
    table is the one it was. *)
Theorem turn_keeps_earlier_records (prompt : string) (m : machine) (l : list message) :
  turn_keeps_session W prompt m l -> ss_messages (session m) = Some l ->
  exists rest,
    ss_messages (session (chat_turn W prompt m).1) = Some (l ++ user_record prompt :: rest)
    /\ ss_df (session (chat_turn W prompt m).1) = ss_df (session m).
Proof.
  intros K Hl. destruct (ss_df (session m)) as [[d|]|] eqn:Hd.
  - rewrite (chat_turn_eq W prompt m l d Hl Hd).
    pose proof (get_ai_response_session d prompt m l Hd K) as S.
    destruct (get_ai_response W d prompt (asked m l prompt)) as [m1 [t | e |]];
      cbn [fst] in S.
    + assert (R : forall fig result code,
                 exists rest,
                   ss_messages (session (render W fig result code m1).1)
                   = Some (l ++ user_record prompt :: rest)
                   /\ ss_df (session (render W fig result code m1).1) = Some (Some d)).
      { intros fig result code.
        destruct (render_keeps_prefix fig result code m1 (l ++ [user_record prompt]))
          as (rest & H1 & H2); [rewrite S; reflexivity |].
        exists rest. rewrite H1, H2, S, <- app_assoc. cbn. rewrite Hd. auto. }
      destruct t as [|a [|b [|c [|x t]]]]; cbn;
        try (exists []; rewrite S; cbn; rewrite Hd; auto).
      apply R.
    + exists []. cbn. rewrite S. cbn. rewrite Hd. auto.
    + exists []. cbn. rewrite S. cbn. rewrite Hd. auto.
  - exists []. rewrite (chat_turn_without_table prompt m l Hl); [| rewrite Hd; auto].
    cbn. rewrite Hd. auto.
  - exists []. rewrite (chat_turn_without_table prompt m l Hl); [| rewrite Hd; auto].
    cbn. rewrite Hd. auto.
Qed.

(** X11: a turn that completes leaves exactly two new records, the
    question and then the assistant's reply with one of the three
    summaries, when the code executed in the turn leaves the session
    alone. *)
Theorem completed_turn_appends_two (prompt : string) (m m' : machine) (l : list message) :
  turn_keeps_session W prompt m l -> ss_messages (session m) = Some l ->
  chat_turn W prompt m = (m', Returns tt) ->
  exists content code,
    session m' = {| ss_messages := Some (l ++ [user_record prompt; reply_record content code]);
                    ss_df := ss_df (session m) |}
    /\ (content = chart_summary \/ content = result_summary \/ content = failure_summary).
Proof.
  intros K Hl H.
  destruct (chat_turn_needs_session W prompt m m' H) as (l0 & d & Hl0 & Hd).
  assert (l0 = l) as -> by congruence.
  rewrite (chat_turn_eq W prompt m l d Hl Hd) in H.
  pose proof (get_ai_response_session d prompt m l Hd K) as S.
  destruct (get_ai_response W d prompt (asked m l prompt)) as [m1 [t | e |]];
    cbn [fst] in S; [| discriminate | discriminate].
  destruct t as [|a [|b [|c [|x t]]]]; cbn in H; try discriminate.
  destruct (render_completed W a b c m1 m' H) as (l1 & content & H1 & H2 & H3).
  rewrite S in H1, H2. cbn in H1, H2. injection H1 as <-.
  exists content, c. split; [| exact H3].
  rewrite H2, <- app_assoc, Hd. reflexivity.
Qed.

End Transcript.

Lemma demo_keeps_session (key : option string) (reply : result string)
    (sample : option string) :
  exec_keeps_session (Demo.world key reply sample).
Proof.
  intros code vars m. cbn. unfold Demo.run.
  repeat (destruct (String.eqb code _); [reflexivity |]). reflexivity.
Qed.

(** In [meddling_world] some code empties the transcript, yet the code
    of this turn does not. *)
Lemma meddling_world_turn (old : list message) (scr : list ui_event) :
  ~ exec_keeps_session (meddling_world (Returns "result = 42"))
  /\ turn_keeps_session (meddling_world (Returns "result = 42")) "Total sales?"
       {| session := {| ss_messages := Some old; ss_df := Some (Some Demo.sales) |};
          screen := scr |} old.
Proof.
  split.
  - intros K.
    pose proof (K "st.session_state.messages = []" ∅
                  {| session := {| ss_messages := Some [user_record "hi"]; ss_df := None |};
                     screen := [] |}) as H.
    discriminate H.
  - intros d text Hd G. cbn in Hd, G. injection Hd as <-. injection G as <-. reflexivity.
Qed.

Lemma turn_keeps_earlier_records_witness :
  let W := meddling_world (Returns "result = 42") in
  let old := [user_record "hi"; reply_record result_summary (PyStr "result = 42")] in
  let m := {| session := {| ss_messages := Some old; ss_df := Some (Some Demo.sales) |};
              screen := [] |} in
  exists rest,
    ss_messages (session (chat_turn W "Total sales?" m).1)
    = Some (old ++ user_record "Total sales?" :: rest)
    /\ ss_df (session (chat_turn W "Total sales?" m).1) = Some (Some Demo.sales).
Proof.
  intros W old m.
  exact (turn_keeps_earlier_records W "Total sales?" m old
           (proj2 (meddling_world_turn old [])) eq_refl).
Defined.

Lemma completed_turn_appends_two_witness :
  let W := meddling_world (Returns "result = 42") in
  let old := [user_record "hi"; reply_record failure_summary (PyStr "x = 1")] in
  let m := {| session := {| ss_messages := Some old; ss_df := Some (Some Demo.sales) |};
              screen := [] |} in
  exists content code,
    session (chat_turn W "Total sales?" m).1
    = {| ss_messages :=
           Some (old ++ [user_record "Total sales?"; reply_record content code]);
         ss_df := Some (Some Demo.sales) |}
    /\ (content = chart_summary \/ content = result_summary \/ content = failure_summary).
Proof.
  intros W old m.
  exact (completed_turn_appends_two W "Total sales?" m _ old
           (proj2 (meddling_world_turn old [])) eq_refl eq_refl).
Defined.

(** X12: showing the transcript changes nothing in the session and
    never fails; the records come out in their order, each with its
    role and text, and with the expander and its code exactly when the
    record carries code. *)
Theorem transcript_display_is_read_only (l1 l2 : list message) (m : machine) :
  session (show_messages (l1 ++ l2) m).1 = session m
  /\ (show_messages (l1 ++ l2) m).2 = Returns tt
  /\ screen (show_messages (l1 ++ l2) m).1
     = (screen m ++ flat_map shown l1) ++ flat_map shown l2
  /\ show_messages (l1 ++ l2) m = show_messages l2 (show_messages l1 m).1.
Proof.
  rewrite !show_messages_eq. cbn [fst snd session screen].
  rewrite flat_map_app, app_assoc. auto.
Qed.

(** ** More on the cleaning of the reply *)

Module Cleanup.

Import PyStr.

Lemma lstrip_sublist (s : string) : sublist (chars (lstrip s)) (chars s).
Proof.
  induction s as [|c r IH]; [reflexivity |].
  cbn [lstrip]. destruct (isspace c); [| reflexivity].
  apply sublist_cons, IH.
Qed.

Lemma rstrip_sublist (s : string) : sublist (chars (rstrip s)) (chars s).
Proof.
  induction s as [|c r IH]; [reflexivity |].
  cbn [rstrip]. destruct (rstrip r) as [|a b].
  - destruct (isspace c).
    + apply sublist_nil_l.
    + apply sublist_skip, sublist_nil_l.
  - apply sublist_skip, IH.
Qed.

Lemma replace_from_sublist (old : string) (k : nat) (s : string) :
  sublist (chars (replace_from old EmptyString k s)) (chars s).
Proof.
  revert k. induction s as [|c r IH]; intros k; [reflexivity |].
  cbn [replace_from]. destruct k as [|k].
  - destruct (String.prefix old (String c r)).
    + change (EmptyString +:+ replace_from old EmptyString (String.length old - 1) r)
        with (replace_from old EmptyString (String.length old - 1) r).
      apply sublist_cons, IH.
    + apply sublist_skip, IH.
  - apply sublist_cons, IH.
Qed.

Lemma lstrip_all_space (ws : string) : all_space ws = true -> lstrip ws = EmptyString.
Proof.
  induction ws as [|c r IH]; [reflexivity |].
  cbn. destruct (isspace c); [exact IH | discriminate].
Qed.

Lemma rstrip_all_space (ws : string) : all_space ws = true -> rstrip ws = EmptyString.
Proof.
  induction ws as [|c r IH]; [reflexivity |].
  cbn. destruct (isspace c); [| discriminate].
  intros H. rewrite (IH H). reflexivity.
Qed.

Lemma lstrip_leading (ws t : string) :
  all_space ws = true -> lstrip (ws +:+ t) = lstrip t.
Proof.
  induction ws as [|c r IH]; [reflexivity |].
  change (String c r +:+ t) with (String c (r +:+ t)).
  cbn. destruct (isspace c); [exact IH | discriminate].
Qed.

Lemma rstrip_trailing (t ws : string) :
  all_space ws = true -> rstrip (t +:+ ws) = rstrip t.
Proof.
  intros H. induction t as [|c r IH]; [apply rstrip_all_space, H |].
  change (String c r +:+ ws) with (String c (r +:+ ws)).
  cbn [rstrip]. rewrite IH. reflexivity.
Qed.

Lemma strip_trailing (t ws : string) :
  all_space ws = true -> rstrip (lstrip (t +:+ ws)) = rstrip (lstrip t).
Proof.
  intros H. induction t as [|c r IH].
  - change (EmptyString +:+ ws) with ws. rewrite (lstrip_all_space ws H). reflexivity.
  - change (String c r +:+ ws) with (String c (r +:+ ws)).
    cbn [lstrip]. destruct (isspace c); [exact IH |].
    change (String c (r +:+ ws)) with (String c r +:+ ws).
    apply rstrip_trailing, H.
Qed.

(** White space around a text does not survive [strip]. *)
Lemma strip_surrounded (ws1 t ws2 : string) :
  all_space ws1 = true -> all_space ws2 = true ->
  strip (ws1 +:+ t +:+ ws2) = strip t.
Proof.
  intros H1 H2. unfold strip. rewrite (lstrip_leading ws1 _ H1).
  apply strip_trailing, H2.
Qed.

End Cleanup.

(** X13: the cleaning of the reply only deletes.  The code handed to
    the Executor is the reply with some characters left out: nothing is
    added, changed or moved. *)
Theorem code_to_execute_only_deletes (text : string) :
  sublist (chars (code_to_execute text)) (chars text).
Proof.
  unfold code_to_execute.
  transitivity (chars (PyStr.replace PyStr.fence_python EmptyString (PyStr.strip text))).
  { apply (Cleanup.replace_from_sublist PyStr.fence 0). }
  transitivity (chars (PyStr.strip text)).
  { apply (Cleanup.replace_from_sublist PyStr.fence_python 0). }
  unfold PyStr.strip.
  transitivity (chars (PyStr.lstrip text));
    [apply Cleanup.rstrip_sublist | apply Cleanup.lstrip_sublist].
Qed.

(** X14: white space before and after the reply makes no difference to
    the code that is executed. *)
Theorem reply_margins_are_ignored (ws1 text ws2 : string) :
  all_space ws1 = true -> all_space ws2 = true ->
  code_to_execute (ws1 +:+ text +:+ ws2) = code_to_execute text.
Proof.
  intros H1 H2. unfold code_to_execute.
  rewrite (Cleanup.strip_surrounded ws1 text ws2 H1 H2). reflexivity.
Qed.

Lemma reply_margins_are_ignored_witness :
  code_to_execute ((PyStr.newline +:+ "  ") +:+ "result = 42" +:+ (" " +:+ PyStr.newline))
  = code_to_execute "result = 42".
Proof.
  exact (reply_margins_are_ignored (PyStr.newline +:+ "  ") "result = 42"
           (" " +:+ PyStr.newline) eq_refl eq_refl).
Defined.

(** ** Outputs come from the executed code only *)

(** X15: none of the names the scope starts with is an output slot.
    Code that leaves the scope as it found it (an empty reply, a bare
    expression) gives None in both slots, so the turn goes to the
    failure branch. *)
Theorem untouched_scope_gives_no_output (W : world) (code : string) (df : DataFrame)
    (m m' : machine) (l : list message) :
  exec W code (local_vars df) m = (m', Returns (local_vars df)) ->
  ss_messages (session m') = Some l ->
  execute_code W code df m = (m', Returns [PyNone; PyNone; PyStr code])
  /\ render W PyNone PyNone (PyStr code) m'
     = (recorded m' (l ++ [reply_record failure_summary (PyStr code)])
          [StError ("Sorry, I ran into an issue. " +:+ PyStr.newline +:+ PyStr.newline
                    +:+ "None")],
        Returns tt).
Proof.
  intros H Hl. split.
  - apply (execute_code_slots_unset W code df m m' (local_vars df) H); reflexivity.
  - apply render_failure; [reflexivity | exact Hl].
Qed.

Lemma untouched_scope_gives_no_output_witness :
  let W := pass_world (Returns "pass") in
  let m := {| session := {| ss_messages := Some [user_record "Anything?"];
                            ss_df := Some (Some Demo.sales) |};
              screen := [] |} in
  execute_code W "pass" Demo.sales m = (m, Returns [PyNone; PyNone; PyStr "pass"])
  /\ render W PyNone PyNone (PyStr "pass") m
     = (recorded m [user_record "Anything?"; reply_record failure_summary (PyStr "pass")]
          [StError ("Sorry, I ran into an issue. " +:+ PyStr.newline +:+ PyStr.newline
                    +:+ "None")],
        Returns tt).
Proof.
  intros W m.
  exact (untouched_scope_gives_no_output W "pass" Demo.sales m m [user_record "Anything?"]
           eq_refl eq_refl).
Defined.

(** ** The prompt *)

Module Prompt.

Lemma append_assoc (a b c : string) : (a +:+ b) +:+ c = a +:+ (b +:+ c).
Proof.
  induction a as [|x a IH]; [reflexivity |].
  change ((String x a +:+ b) +:+ c) with (String x ((a +:+ b) +:+ c)).
  rewrite IH. reflexivity.
Qed.

Lemma contains_here (sub rest : string) : PyStr.contains sub (sub +:+ rest) = true.
Proof.
  assert (P : String.prefix sub (sub +:+ rest) = true).
  { apply (proj2 (Suffix.prefix_iff sub (sub +:+ rest))). exists rest. reflexivity. }
  destruct (sub +:+ rest); cbn [PyStr.contains]; rewrite P; reflexivity.
Qed.

(** A text that is there is found. *)
Lemma contains_inside (before sub rest : string) :
  PyStr.contains sub (before +:+ sub +:+ rest) = true.
Proof.
  induction before as [|c r IH]; [apply (contains_here sub rest) |].
  change (String c r +:+ sub +:+ rest) with (String c (r +:+ sub +:+ rest)).
  rewrite Unfence.contains_cons, IH. apply orb_true_r.
Qed.

End Prompt.

(** X16: what the model is sent.  The prompt holds the question word for
    word between double quotes, and the rendering of the head of the
    table; of the table it depends on the columns and the first five
    rows only. *)
Theorem prompt_carries_question_and_head (W : world) (d d' : DataFrame)
    (user_query : string) :
  PyStr.contains (PyStr.quote +:+ user_query +:+ PyStr.quote)
    (build_prompt (to_string W (head d)) user_query) = true
  /\ PyStr.contains (to_string W (head d))
       (build_prompt (to_string W (head d)) user_query) = true
  /\ (df_columns d' = df_columns d -> take 5 (df_rows d') = take 5 (df_rows d) ->
      build_prompt (to_string W (head d')) user_query
      = build_prompt (to_string W (head d)) user_query).
Proof.
  unfold build_prompt. split; [| split].
  - assert (E : prompt_before_head +:+ to_string W (head d) +:+ prompt_before_query
                +:+ PyStr.quote +:+ user_query +:+ PyStr.quote +:+ prompt_after_query
                = (prompt_before_head +:+ to_string W (head d) +:+ prompt_before_query)
                  +:+ (PyStr.quote +:+ user_query +:+ PyStr.quote) +:+ prompt_after_query).
    { rewrite !Prompt.append_assoc. reflexivity. }
    rewrite E. apply Prompt.contains_inside.
  - apply Prompt.contains_inside.
  - intros Hc Hr. unfold head. rewrite Hc, Hr. reflexivity.
Qed.

Lemma prompt_carries_question_and_head_witness :
  let W := Demo.world (Some "k") (Returns "result = 42") None in
  let long := {| df_columns := ["n"];
                 df_rows := [["1"]; ["2"]; ["3"]; ["4"]; ["5"]; ["6"]; ["7"]] |} in
  let short := {| df_columns := ["n"]; df_rows := [["1"]; ["2"]; ["3"]; ["4"]; ["5"]] |} in
  build_prompt (to_string W (head long)) "How many rows?"
  = build_prompt (to_string W (head short)) "How many rows?".
Proof.
  intros W long short.
  exact (proj2 (proj2 (prompt_carries_question_and_head W short long "How many rows?"))
           eq_refl eq_refl).
Defined.

(** ** A failed upload and the chat *)

(** X17: a run in which the uploaded file fails to parse ends without
    the chat.  The error is shown, the table is gone, and the page stops
    at the invitation to upload: the transcript is not shown and a
    question that came with the run is dropped, even if a table had been
    loaded before. *)
Theorem failed_upload_hides_chat (W : world) (i : inputs) (m : machine) (k : string)
    (f : uploaded_file) (e : pyexn) :
  credential W = Some k -> uploaded i = Some f ->
  read_upload W f = Raises e -> is_Exception (exn_cls e) = true ->
  load_sample_clicked i = false ->
  script W i m
  = ({| session := {| ss_messages := Some (default [] (ss_messages (session m)));
                      ss_df := Some None |};
        screen := ((screen m ++ page_top)
                   ++ [StError ("Error reading file: " +:+ exn_text e)])
                  ++ [StInfo "Please upload a CSV or Excel file, or load the sample data to get started."] |},
     Returns tt).
Proof.
  intros Hk Hf Hr He Hc. unfold script.
  rewrite bind_eq, (configure_with_credential W m k Hk).
  unfold sidebar, upload_step, sample_step, try_except_Exception. rewrite Hf, Hc.
  unfold emit, init_session, get_df, get_messages, set_df, set_messages, lift,
    page_top, bind, ret.
  cbn -[chat_turn show_messages]. rewrite Hr. cbn -[chat_turn show_messages].
  rewrite He. cbn -[chat_turn show_messages]. rewrite <- !app_assoc. reflexivity.
Qed.

Lemma failed_upload_hides_chat_witness :
  let W := Demo.world (Some "k") (Returns "result = 42") None in
  let old := [user_record "Plot it"; reply_record chart_summary (PyStr "fig = 1")] in
  let m := {| session := {| ss_messages := Some old; ss_df := Some (Some Demo.sales) |};
              screen := [] |} in
  let f := {| file_name := "empty.csv"; file_data := EmptyString |} in
  let i := {| uploaded := Some f; load_sample_clicked := false;
              chat_input := Some "Total sales?" |} in
  script W i m
  = ({| session := {| ss_messages := Some old; ss_df := Some None |};
        screen := (page_top ++ [StError "Error reading file: No columns to parse from file"])
                  ++ [StInfo "Please upload a CSV or Excel file, or load the sample data to get started."] |},
     Returns tt).
Proof.
  intros W old m f i.
  exact (failed_upload_hides_chat W i m "k" f
           {| exn_cls := OtherException "EmptyDataError";
              exn_text := "No columns to parse from file" |}
           eq_refl eq_refl eq_refl eq_refl eq_refl).
Defined.
